(** * Mars lander: the Verlet integrator, the autopilot and the scenario
      initialiser of [lander.cpp]

    A shallow embedding of the three functions of [lander.cpp]
    ([autopilot], [numerical_dynamics], [initialize_simulation]) as state
    transformers over one record holding every global and [static] variable
    the file reads or writes.

    Numbers.  The C++ [double] is modelled by the real numbers [R] of the
    Standard Library: every arithmetic expression below is the source
    expression with real-number operations and the same association and
    operand order.  Rounding, overflow, infinities and NaN are therefore
    outside this model; statements proved here are statements about the
    exact arithmetic the specification speaks of ("over all real
    [power_output]").  The throttle block alone is also given on binary64
    numbers ([Binary64]), to evaluate it on the machine's own [double].  The
    C++ [int first_iteration] and [int scenario] are integers [Z]. *)

From Stdlib Require Import Reals.Reals Lra Lia ZArith Bool String.
From Stdlib Require Import FunctionalExtensionality.
From Stdlib Require PrimFloat.

Open Scope R_scope.

(** ** Three-dimensional vectors *)

Declare Scope vec_scope.
Delimit Scope vec_scope with vec.

Module Vec.

(** Modelled from the spec: the class [vector3d] of [lander.h], a value of
    three scalar components. *)
Record vector3d : Type := mk { x : R; y : R; z : R }.

Bind Scope vec_scope with vector3d.

(** The class [vector3d] is declared in [lander.h], which is not part of
    the sources at hand.  Its operations below are the ones the
    specification lists: addition, subtraction, scalar multiplication and
    division, dot product, magnitude ([abs]), squared magnitude ([abs2]) and
    unit vector ([norm]). *)

(** Modelled from the spec: [u + v] of [lander.h], addition. *)
Definition add (u v : vector3d) : vector3d :=
  mk (x u + x v) (y u + y v) (z u + z v).

(** Modelled from the spec: [u - v] of [lander.h], subtraction. *)
Definition sub (u v : vector3d) : vector3d :=
  mk (x u - x v) (y u - y v) (z u - z v).

(** Modelled from the spec: [k * v] of [lander.h], scalar multiplication
    with the scalar on the left. *)
Definition scale (k : R) (v : vector3d) : vector3d :=
  mk (k * x v) (k * y v) (k * z v).

(** Modelled from the spec: [v * k] of [lander.h], scalar multiplication
    with the scalar on the right. *)
Definition times (v : vector3d) (k : R) : vector3d :=
  mk (x v * k) (y v * k) (z v * k).

(** Modelled from the spec: [v / k] of [lander.h], scalar division. *)
Definition div (v : vector3d) (k : R) : vector3d :=
  mk (x v / k) (y v / k) (z v / k).

(** Modelled from the spec: [u * v] of [lander.h] on two vectors, the dot
    product. *)
Definition dot (u v : vector3d) : R :=
  x u * x v + y u * y v + z u * z v.

(** Modelled from the spec: [v.abs2()] of [lander.h], the squared
    magnitude. *)
Definition abs2 (v : vector3d) : R :=
  x v * x v + y v * y v + z v * z v.

(** Modelled from the spec: [v.abs()] of [lander.h], the magnitude. *)
Definition abs (v : vector3d) : R := sqrt (abs2 v).

(** Modelled from the spec: [v.norm()] of [lander.h], the unit vector.  The
    specification leaves the result on a vector of length zero open; no
    statement below depends on it. *)
Definition norm (v : vector3d) : vector3d := div v (abs v).

End Vec.

Import Vec (vector3d).

Bind Scope vec_scope with vector3d.

Infix "+" := Vec.add : vec_scope.
Infix "-" := Vec.sub : vec_scope.
Infix "*:" := Vec.scale (at level 40, left associativity) : vec_scope.
Infix ":*" := Vec.times (at level 40, left associativity) : vec_scope.
Infix ":/" := Vec.div (at level 40, left associativity) : vec_scope.

(** ** The program state *)

(** Modelled from the spec: the enumeration [parachute_status_t] of
    [lander.h], with the three states the specification names. *)
Inductive parachute_status_t : Type := NOT_DEPLOYED | DEPLOYED | LOST.

Definition parachute_status_eqb (p q : parachute_status_t) : bool :=
  match p, q with
  | NOT_DEPLOYED, NOT_DEPLOYED | DEPLOYED, DEPLOYED | LOST, LOST => true
  | _, _ => false
  end.

(** Every variable [lander.cpp] touches: the simulator's globals declared in
    [lander.h], the three globals of [lander.cpp] itself and the [static]
    locals of [autopilot] and [numerical_dynamics]. *)
Record State : Type := mkState {
  (* globals of the simulator *)
  position : vector3d;
  velocity : vector3d;
  orientation : vector3d;
  delta_t : R;
  throttle : R;
  fuel : R;
  parachute_status : parachute_status_t;
  stabilized_attitude : bool;
  autopilot_enabled : bool;
  scenario : Z;
  scenario_description : Z -> string;
  (* globals of lander.cpp *)
  system_engaged : bool;
  initial_altitude : R;
  first_iteration : Z;
  (* static double vel_engaged of autopilot *)
  vel_engaged : R;
  (* static vector3d previous_position, current_position of numerical_dynamics *)
  previous_position : vector3d;
  current_position : vector3d
}.

(** Assignments to one variable. *)

Definition set_position (v : vector3d) (s : State) : State :=
  mkState v (velocity s) (orientation s) (delta_t s) (throttle s) (fuel s)
    (parachute_status s) (stabilized_attitude s) (autopilot_enabled s)
    (scenario s) (scenario_description s) (system_engaged s)
    (initial_altitude s) (first_iteration s) (vel_engaged s)
    (previous_position s) (current_position s).

Definition set_velocity (v : vector3d) (s : State) : State :=
  mkState (position s) v (orientation s) (delta_t s) (throttle s) (fuel s)
    (parachute_status s) (stabilized_attitude s) (autopilot_enabled s)
    (scenario s) (scenario_description s) (system_engaged s)
    (initial_altitude s) (first_iteration s) (vel_engaged s)
    (previous_position s) (current_position s).

Definition set_orientation (v : vector3d) (s : State) : State :=
  mkState (position s) (velocity s) v (delta_t s) (throttle s) (fuel s)
    (parachute_status s) (stabilized_attitude s) (autopilot_enabled s)
    (scenario s) (scenario_description s) (system_engaged s)
    (initial_altitude s) (first_iteration s) (vel_engaged s)
    (previous_position s) (current_position s).

Definition set_delta_t (r : R) (s : State) : State :=
  mkState (position s) (velocity s) (orientation s) r (throttle s) (fuel s)
    (parachute_status s) (stabilized_attitude s) (autopilot_enabled s)
    (scenario s) (scenario_description s) (system_engaged s)
    (initial_altitude s) (first_iteration s) (vel_engaged s)
    (previous_position s) (current_position s).

Definition set_throttle (r : R) (s : State) : State :=
  mkState (position s) (velocity s) (orientation s) (delta_t s) r (fuel s)
    (parachute_status s) (stabilized_attitude s) (autopilot_enabled s)
    (scenario s) (scenario_description s) (system_engaged s)
    (initial_altitude s) (first_iteration s) (vel_engaged s)
    (previous_position s) (current_position s).

Definition set_parachute_status (p : parachute_status_t) (s : State) : State :=
  mkState (position s) (velocity s) (orientation s) (delta_t s) (throttle s)
    (fuel s) p (stabilized_attitude s) (autopilot_enabled s)
    (scenario s) (scenario_description s) (system_engaged s)
    (initial_altitude s) (first_iteration s) (vel_engaged s)
    (previous_position s) (current_position s).

Definition set_stabilized_attitude (b : bool) (s : State) : State :=
  mkState (position s) (velocity s) (orientation s) (delta_t s) (throttle s)
    (fuel s) (parachute_status s) b (autopilot_enabled s)
    (scenario s) (scenario_description s) (system_engaged s)
    (initial_altitude s) (first_iteration s) (vel_engaged s)
    (previous_position s) (current_position s).

Definition set_autopilot_enabled (b : bool) (s : State) : State :=
  mkState (position s) (velocity s) (orientation s) (delta_t s) (throttle s)
    (fuel s) (parachute_status s) (stabilized_attitude s) b
    (scenario s) (scenario_description s) (system_engaged s)
    (initial_altitude s) (first_iteration s) (vel_engaged s)
    (previous_position s) (current_position s).

Definition set_scenario_description (i : Z) (d : string) (s : State) : State :=
  mkState (position s) (velocity s) (orientation s) (delta_t s) (throttle s)
    (fuel s) (parachute_status s) (stabilized_attitude s) (autopilot_enabled s)
    (scenario s)
    (fun j => if Z.eqb j i then d else scenario_description s j)
    (system_engaged s)
    (initial_altitude s) (first_iteration s) (vel_engaged s)
    (previous_position s) (current_position s).

Definition set_system_engaged (b : bool) (s : State) : State :=
  mkState (position s) (velocity s) (orientation s) (delta_t s) (throttle s)
    (fuel s) (parachute_status s) (stabilized_attitude s) (autopilot_enabled s)
    (scenario s) (scenario_description s) b
    (initial_altitude s) (first_iteration s) (vel_engaged s)
    (previous_position s) (current_position s).

Definition set_initial_altitude (r : R) (s : State) : State :=
  mkState (position s) (velocity s) (orientation s) (delta_t s) (throttle s)
    (fuel s) (parachute_status s) (stabilized_attitude s) (autopilot_enabled s)
    (scenario s) (scenario_description s) (system_engaged s)
    r (first_iteration s) (vel_engaged s)
    (previous_position s) (current_position s).

Definition set_first_iteration (n : Z) (s : State) : State :=
  mkState (position s) (velocity s) (orientation s) (delta_t s) (throttle s)
    (fuel s) (parachute_status s) (stabilized_attitude s) (autopilot_enabled s)
    (scenario s) (scenario_description s) (system_engaged s)
    (initial_altitude s) n (vel_engaged s)
    (previous_position s) (current_position s).

Definition set_vel_engaged (r : R) (s : State) : State :=
  mkState (position s) (velocity s) (orientation s) (delta_t s) (throttle s)
    (fuel s) (parachute_status s) (stabilized_attitude s) (autopilot_enabled s)
    (scenario s) (scenario_description s) (system_engaged s)
    (initial_altitude s) (first_iteration s) r
    (previous_position s) (current_position s).

Definition set_previous_position (v : vector3d) (s : State) : State :=
  mkState (position s) (velocity s) (orientation s) (delta_t s) (throttle s)
    (fuel s) (parachute_status s) (stabilized_attitude s) (autopilot_enabled s)
    (scenario s) (scenario_description s) (system_engaged s)
    (initial_altitude s) (first_iteration s) (vel_engaged s)
    v (current_position s).

Definition set_current_position (v : vector3d) (s : State) : State :=
  mkState (position s) (velocity s) (orientation s) (delta_t s) (throttle s)
    (fuel s) (parachute_status s) (stabilized_attitude s) (autopilot_enabled s)
    (scenario s) (scenario_description s) (system_engaged s)
    (initial_altitude s) (first_iteration s) (vel_engaged s)
    (previous_position s) v.

(** Comparisons of [double]s, as booleans. *)
Definition Rltb (a b : R) : bool := if Rlt_dec a b then true else false.
Definition Rleb (a b : R) : bool := if Rle_dec a b then true else false.

(** ** What the rest of the simulator provides *)

(** Modelled from the spec: the constants of [lander.h], which is not part
    of the sources at hand, taken as parameters, and the four collaborators
    [atmospheric_density], [thrust_wrt_world], [safe_to_deploy_parachute]
    and [attitude_stabilization], which are defined outside [lander.cpp].
    Following the specification's external interfaces, the first three are
    functions of the simulator's state that return a value, and the
    stabiliser computes a new orientation and changes nothing else. *)
Class Simulator : Type := {
  MARS_RADIUS : R;
  MARS_MASS : R;
  GRAVITY : R;
  MAX_THRUST : R;
  UNLOADED_LANDER_MASS : R;
  FUEL_DENSITY : R;
  FUEL_CAPACITY : R;
  DRAG_COEF_LANDER : R;
  DRAG_COEF_CHUTE : R;
  EXOSPHERE : R;
  LANDER_SIZE : R;
  atmospheric_density : vector3d -> R;
  thrust_wrt_world : State -> vector3d;
  safe_to_deploy_parachute : State -> bool;
  attitude_stabilization : State -> vector3d
}.

(** ** The throttle block on binary64 numbers *)

Module Binary64.

Import PrimFloat.

(** Lines 59-69 on the kernel's IEEE 754 binary64 numbers, the C++
    [double] itself. *)
Definition throttle_block
    (weight_throttle power_output throttle : float) : float :=
  let throttle :=
    if leb power_output (- weight_throttle)%float
    then 0%float
    else throttle in
  if ltb (- weight_throttle)%float power_output
     && ltb power_output (1 - weight_throttle)%float
  then (weight_throttle + power_output)%float
  else 1%float.

End Binary64.

(** ** Sample data *)

(** One simulator and a few states, used to evaluate the functions on
    concrete inputs.  The simulator is the simplest one: no gravity and no
    air, a lander of unit mass under a constant thrust of 3 N along [y], a
    safety check that always refuses and a stabiliser that keeps the
    orientation. *)
Module Sample.

Definition push : Simulator := {|
  MARS_RADIUS := 3386000;
  MARS_MASS := 1;
  GRAVITY := 0;
  MAX_THRUST := 1000;
  UNLOADED_LANDER_MASS := 1;
  FUEL_DENSITY := 0;
  FUEL_CAPACITY := 0;
  DRAG_COEF_LANDER := 0;
  DRAG_COEF_CHUTE := 0;
  EXOSPHERE := 200000;
  LANDER_SIZE := 1;
  atmospheric_density := fun _ => 0;
  thrust_wrt_world := fun _ => Vec.mk 0 3 0;
  safe_to_deploy_parachute := fun _ => false;
  attitude_stabilization := fun s => orientation s
|}.

Definition origin : vector3d := Vec.mk 0 0 0.

Definition no_description : Z -> string := fun _ => EmptyString.

(** Engaged since a descent at 200 m/s; now 1000 m up and descending at
    20 m/s, slower than the profile asks at that altitude. *)
Definition slow_descent : State := {|
  position := Vec.mk 0 (- 3387000) 0;
  velocity := Vec.mk 0 20 0;
  orientation := origin;
  delta_t := 0.1;
  throttle := 0.5;
  fuel := 0.5;
  parachute_status := NOT_DEPLOYED;
  stabilized_attitude := true;
  autopilot_enabled := true;
  scenario := 1;
  scenario_description := no_description;
  system_engaged := true;
  initial_altitude := 10000;
  first_iteration := 0;
  vel_engaged := - 200;
  previous_position := Vec.mk 0 (- 3387002) 0;
  current_position := Vec.mk 0 (- 3387004) 0
|}.

(** Before the first step, not engaged, 5001.5 m up and descending at
    10 m/s; [alt_engage] is 5000 m. *)
Definition high_coast : State := {|
  position := Vec.mk 0 (- 3391001.5) 0;
  velocity := Vec.mk 0 10 0;
  orientation := origin;
  delta_t := 0.1;
  throttle := 0.25;
  fuel := 1;
  parachute_status := NOT_DEPLOYED;
  stabilized_attitude := true;
  autopilot_enabled := true;
  scenario := 1;
  scenario_description := no_description;
  system_engaged := false;
  initial_altitude := 10000;
  first_iteration := 1;
  vel_engaged := 0;
  previous_position := origin;
  current_position := origin
|}.

(** Before the first step, at rest 10 km up. *)
Definition at_rest : State := {|
  position := Vec.mk 0 (- 3396000) 0;
  velocity := Vec.mk 0 0 0;
  orientation := origin;
  delta_t := 0.1;
  throttle := 0;
  fuel := 1;
  parachute_status := NOT_DEPLOYED;
  stabilized_attitude := true;
  autopilot_enabled := true;
  scenario := 1;
  scenario_description := no_description;
  system_engaged := false;
  initial_altitude := 10000;
  first_iteration := 1;
  vel_engaged := 0;
  previous_position := origin;
  current_position := origin
|}.

(** The state a finished descent from 10 km leaves behind, with the
    scenario switched to [n]. *)
Definition restart (n : Z) : State := {|
  position := Vec.mk 0 (- 3386000.5) 0;
  velocity := Vec.mk 0 0.5 0;
  orientation := origin;
  delta_t := 0.1;
  throttle := 0.25;
  fuel := 0.25;
  parachute_status := DEPLOYED;
  stabilized_attitude := true;
  autopilot_enabled := true;
  scenario := n;
  scenario_description := no_description;
  system_engaged := true;
  initial_altitude := 10000;
  first_iteration := 0;
  vel_engaged := - 200;
  previous_position := Vec.mk 0 (- 3386000.55) 0;
  current_position := Vec.mk 0 (- 3386000.55) 0
|}.

End Sample.

(** ** A second simulator *)

(** A simulator with gravity, air and a safety check that always agrees,
    and the state an earlier run may leave in the variables a restart does
    not assign. *)
Module Trial.

Definition mars : Simulator := {|
  MARS_RADIUS := 3386000;
  MARS_MASS := 2;
  GRAVITY := 3;
  MAX_THRUST := 1000;
  UNLOADED_LANDER_MASS := 100;
  FUEL_DENSITY := 1;
  FUEL_CAPACITY := 100;
  DRAG_COEF_LANDER := 1;
  DRAG_COEF_CHUTE := 2;
  EXOSPHERE := 200000;
  LANDER_SIZE := 1;
  atmospheric_density := fun _ => 0.01;
  thrust_wrt_world := fun _ => Vec.mk 0 0 0;
  safe_to_deploy_parachute := fun _ => true;
  attitude_stabilization := fun s => orientation s
|}.

(** [Sample.restart 1] with other values in the variables of [lander.cpp]
    that are private to a run. *)
Definition other_restart : State := {|
  position := Vec.mk 0 (- 3386000.5) 0;
  velocity := Vec.mk 0 0.5 0;
  orientation := Sample.origin;
  delta_t := 0.1;
  throttle := 0.25;
  fuel := 0.25;
  parachute_status := DEPLOYED;
  stabilized_attitude := true;
  autopilot_enabled := true;
  scenario := 1;
  scenario_description := Sample.no_description;
  system_engaged := false;
  initial_altitude := 10000;
  first_iteration := 7;
  vel_engaged := 55;
  previous_position := Vec.mk 1 2 3;
  current_position := Vec.mk 4 5 6
|}.

(** Engaged, 1000 m up, ascending at 10 m/s. *)
Definition ascent : State := {|
  position := Vec.mk 0 (- 3387000) 0;
  velocity := Vec.mk 0 (- 10) 0;
  orientation := Sample.origin;
  delta_t := 0.1;
  throttle := 0.5;
  fuel := 0.5;
  parachute_status := NOT_DEPLOYED;
  stabilized_attitude := true;
  autopilot_enabled := true;
  scenario := 1;
  scenario_description := Sample.no_description;
  system_engaged := true;
  initial_altitude := 10000;
  first_iteration := 0;
  vel_engaged := - 200;
  previous_position := Vec.mk 0 (- 3386999) 0;
  current_position := Vec.mk 0 (- 3386998) 0
|}.

(** Engaged, on the ground and descending at 0.5 m/s. *)
Definition touchdown : State := {|
  position := Vec.mk 0 (- 3386000) 0;
  velocity := Vec.mk 0 0.5 0;
  orientation := Sample.origin;
  delta_t := 0.1;
  throttle := 0.5;
  fuel := 0.5;
  parachute_status := DEPLOYED;
  stabilized_attitude := true;
  autopilot_enabled := true;
  scenario := 1;
  scenario_description := Sample.no_description;
  system_engaged := true;
  initial_altitude := 10000;
  first_iteration := 0;
  vel_engaged := - 200;
  previous_position := Vec.mk 0 (- 3386000.05) 0;
  current_position := Vec.mk 0 (- 3386000.05) 0
|}.

(** [Sample.slow_descent] descending at 30 m/s instead of 20 m/s. *)
Definition faster_descent : State := {|
  position := Vec.mk 0 (- 3387000) 0;
  velocity := Vec.mk 0 30 0;
  orientation := Sample.origin;
  delta_t := 0.1;
  throttle := 0.5;
  fuel := 0.5;
  parachute_status := NOT_DEPLOYED;
  stabilized_attitude := true;
  autopilot_enabled := true;
  scenario := 1;
  scenario_description := Sample.no_description;
  system_engaged := true;
  initial_altitude := 10000;
  first_iteration := 0;
  vel_engaged := - 200;
  previous_position := Vec.mk 0 (- 3387003) 0;
  current_position := Vec.mk 0 (- 3387006) 0
|}.

End Trial.

(** ** The functions of [lander.cpp] *)

Section Lander.

Context {sim : Simulator}.

(** *** [autopilot] (lines 22-73) *)

Definition autopilot (g_force mass : R) (s : State) : State :=
  let Kp := 0.05 in
  let h := Vec.abs (position s) - MARS_RADIUS in
  let alt_engage := initial_altitude s * 0.5 in
  let weight_throttle := g_force / MAX_THRUST in
  let vel_radial := Vec.dot (velocity s) (Vec.norm (position s)) in
  let chute_engage := alt_engage - (initial_altitude s - 10000) / 1.943 in
  (* lines 35-41 *)
  let s :=
    if Rltb h chute_engage
       && parachute_status_eqb (parachute_status s) NOT_DEPLOYED
    then
      if safe_to_deploy_parachute s
      then set_parachute_status DEPLOYED s
      else s
    else s in
  (* lines 44-71 *)
  if negb (system_engaged s) then
    if Rltb h alt_engage then
      let s := set_system_engaged true s in
      set_vel_engaged vel_radial s
    else s
  else
    let Kh := - ((0.7) * (1 / Kp) + 0.5 + vel_engaged s) / alt_engage in
    let e := - (0.5 + Kh * h + vel_radial) in
    let power_output := Kp * e in
    (* lines 59-61: an [if] of its own, not chained to the next one *)
    let s :=
      if Rleb power_output (- weight_throttle)
      then set_throttle 0 s
      else s in
    (* lines 63-69 *)
    if Rltb (- weight_throttle) power_output
       && Rltb power_output (1 - weight_throttle)
    then set_throttle (weight_throttle + power_output) s
    else set_throttle 1 s.

(** The local variables of [autopilot], as functions of the state at
    entry (lines 28-33 and 55-57). *)
Definition Kp : R := 0.05.
Definition h (s : State) : R := Vec.abs (position s) - MARS_RADIUS.
Definition alt_engage (s : State) : R := initial_altitude s * 0.5.
Definition weight_throttle (g_force : R) : R := g_force / MAX_THRUST.
Definition vel_radial (s : State) : R :=
  Vec.dot (velocity s) (Vec.norm (position s)).
Definition chute_engage (s : State) : R :=
  alt_engage s - (initial_altitude s - 10000) / 1.943.
Definition Kh (s : State) : R :=
  - ((0.7) * (1 / Kp) + 0.5 + vel_engaged s) / alt_engage s.
Definition e (s : State) : R := - (0.5 + Kh s * h s + vel_radial s).
Definition power_output (s : State) : R := Kp * e s.

(** The state after the parachute block (lines 35-41). *)
Definition parachute_block (s : State) : State :=
  if Rltb (h s) (chute_engage s)
     && parachute_status_eqb (parachute_status s) NOT_DEPLOYED
  then
    if safe_to_deploy_parachute s
    then set_parachute_status DEPLOYED s
    else s
  else s.

(** The value lines 59-69 leave in [throttle], as a function of
    [weight_throttle], [power_output] and the value [throttle] had. *)
Definition throttle_block (weight_throttle power_output throttle : R) : R :=
  let throttle :=
    if Rleb power_output (- weight_throttle) then 0 else throttle in
  if Rltb (- weight_throttle) power_output
     && Rltb power_output (1 - weight_throttle)
  then weight_throttle + power_output
  else 1.

(** The saturation mapping in the words of the specification: three
    chained branches. *)
Definition spec_throttle_mapping (weight_throttle power_output : R) : R :=
  if Rleb power_output (- weight_throttle) then 0
  else if Rltb power_output (1 - weight_throttle)
       then weight_throttle + power_output
       else 1.

(** *** [numerical_dynamics] (lines 76-122) *)

(** Lines 84-94: the net acceleration. *)
Definition mass_of (s : State) : R :=
  UNLOADED_LANDER_MASS + fuel s * FUEL_DENSITY * FUEL_CAPACITY.

Definition g_force_of (s : State) : vector3d :=
  (- (GRAVITY * MARS_MASS * (mass_of s) / Vec.abs2 (position s))
     *: Vec.norm (position s))%vec.

Definition d_force_of (s : State) : vector3d :=
  let density := atmospheric_density (position s) in
  let d_force :=
    (- 0.5 * density * DRAG_COEF_LANDER * 3.14159265
       * Vec.abs2 (velocity s) *: Vec.norm (velocity s))%vec in
  if parachute_status_eqb (parachute_status s) DEPLOYED
  then (d_force
        + (- 0.5 * density * DRAG_COEF_CHUTE * 20 * Vec.abs2 (velocity s)
             *: Vec.norm (velocity s)))%vec
  else d_force.

Definition acceleration (s : State) : vector3d :=
  ((g_force_of s + d_force_of s + thrust_wrt_world s) :/ mass_of s)%vec.

(** Lines 103-115: the Verlet integrator, for the acceleration [a]. *)
Definition verlet (a : vector3d) (s : State) : State :=
  if Z.eqb (first_iteration s) 1 then
    let s := set_previous_position (position s) s in
    let s :=
      set_position
        (previous_position s + velocity s :* delta_t s
         + 0.5 * delta_t s * delta_t s *: a) s in
    let s :=
      set_velocity
        ((2 *: position s - previous_position s
          + a :* delta_t s :* delta_t s - previous_position s)
         :* 0.5 :* 1 :/ delta_t s) s in
    set_first_iteration 0 s
  else
    let s := set_current_position (position s) s in
    let s :=
      set_position
        (2 *: current_position s - previous_position s
         + a :* delta_t s :* delta_t s) s in
    let s := set_previous_position (current_position s) s in
    set_velocity
      ((2 *: position s - previous_position s
        + a :* delta_t s :* delta_t s - previous_position s)
       :* 0.5 :* 1 :/ delta_t s) s.

Definition numerical_dynamics (s : State) : State :=
  let mass := mass_of s in
  let g_force := g_force_of s in
  let a := acceleration s in
  let s := verlet a s in
  (* line 118 *)
  let s :=
    if autopilot_enabled s then autopilot (Vec.abs g_force) mass s else s in
  (* line 121 *)
  if stabilized_attitude s
  then set_orientation (attitude_stabilization s) s
  else s.

(** *** [initialize_simulation] (lines 124-216) *)

Definition initialize_simulation (s : State) : State :=
  let s := set_scenario_description 0 "circular orbit" s in
  let s := set_scenario_description 1 "descent from 10km" s in
  let s :=
    set_scenario_description 2
      "elliptical orbit, thrust changes orbital plane" s in
  let s :=
    set_scenario_description 3
      "polar launch at escape velocity (but drag prevents escape)" s in
  let s :=
    set_scenario_description 4
      "elliptical orbit that clips the atmosphere and decays" s in
  let s := set_scenario_description 5 "descent from 200km" s in
  (* lines 142-143 *)
  let s := set_first_iteration 1 s in
  let s := set_system_engaged false s in
  match scenario s with
  | 0%Z =>
      let s := set_position (Vec.mk (1.2 * MARS_RADIUS) 0.0 0.0) s in
      let s := set_velocity (Vec.mk 0.0 (-3247.087385863725) 0.0) s in
      let s := set_orientation (Vec.mk 0.0 90.0 0.0) s in
      let s := set_delta_t 0.1 s in
      let s := set_parachute_status NOT_DEPLOYED s in
      let s := set_stabilized_attitude false s in
      set_autopilot_enabled false s
  | 1%Z =>
      let s :=
        set_position (Vec.mk 0.0 (- (MARS_RADIUS + 10000.0)) 0.0) s in
      let s := set_velocity (Vec.mk 0.0 0.0 0.0) s in
      let s := set_orientation (Vec.mk 0.0 0.0 90.0) s in
      let s := set_delta_t 0.1 s in
      let s := set_parachute_status NOT_DEPLOYED s in
      let s := set_stabilized_attitude true s in
      let s := set_autopilot_enabled true s in
      set_initial_altitude (Vec.abs (position s) - MARS_RADIUS) s
  | 2%Z =>
      let s := set_position (Vec.mk 0.0 0.0 (1.2 * MARS_RADIUS)) s in
      let s := set_velocity (Vec.mk 3500.0 0.0 0.0) s in
      let s := set_orientation (Vec.mk 0.0 0.0 90.0) s in
      let s := set_delta_t 0.1 s in
      let s := set_parachute_status NOT_DEPLOYED s in
      let s := set_stabilized_attitude false s in
      set_autopilot_enabled false s
  | 3%Z =>
      let s :=
        set_position
          (Vec.mk 0.0 0.0 (MARS_RADIUS + LANDER_SIZE / 2.0)) s in
      let s := set_velocity (Vec.mk 0.0 0.0 5027.0) s in
      let s := set_orientation (Vec.mk 0.0 0.0 0.0) s in
      let s := set_delta_t 0.1 s in
      let s := set_parachute_status NOT_DEPLOYED s in
      let s := set_stabilized_attitude false s in
      set_autopilot_enabled false s
  | 4%Z =>
      let s :=
        set_position (Vec.mk 0.0 0.0 (MARS_RADIUS + 100000.0)) s in
      let s := set_velocity (Vec.mk 4000.0 0.0 0.0) s in
      let s := set_orientation (Vec.mk 0.0 90.0 0.0) s in
      let s := set_delta_t 0.1 s in
      let s := set_parachute_status NOT_DEPLOYED s in
      let s := set_stabilized_attitude false s in
      set_autopilot_enabled false s
  | 5%Z =>
      let s :=
        set_position (Vec.mk 0.0 (- (MARS_RADIUS + EXOSPHERE)) 0.0) s in
      let s := set_velocity (Vec.mk 0.0 0.0 0.0) s in
      let s := set_orientation (Vec.mk 0.0 0.0 90.0) s in
      let s := set_delta_t 0.1 s in
      let s := set_parachute_status NOT_DEPLOYED s in
      let s := set_stabilized_attitude true s in
      let s := set_autopilot_enabled true s in
      set_initial_altitude (Vec.abs (position s) - MARS_RADIUS) s
  | _ => s
  end.

(** The reset the specification asks of every call of the initialiser,
    in its words: the bootstrap flag is set, the engagement flag is
    cleared and [initial_altitude] is the altitude of the new starting
    position. *)
Definition spec_scenario_reset (s' : State) : Prop :=
  first_iteration s' = 1%Z
  /\ system_engaged s' = false
  /\ initial_altitude s' = Vec.abs (position s') - MARS_RADIUS.

(** The velocity formula that closes both branches of the integrator
    (lines 106 and 114), on the new position [p], the stored previous
    position [q], the acceleration and the time step. *)
Definition central_difference (p q a : vector3d) (dt : R) : vector3d :=
  ((2 *: p - q + a :* dt :* dt - q) :* 0.5 :* 1 :/ dt)%vec.

(** The state [numerical_dynamics] hands to [autopilot]. *)
Definition integrated (s : State) : State := verlet (acceleration s) s.

(** The state after line 118, the call of [autopilot] when it is
    enabled. *)
Definition piloted (s : State) : State :=
  let s' := integrated s in
  if autopilot_enabled s'
  then autopilot (Vec.abs (g_force_of s)) (mass_of s) s'
  else s'.

(** Modelled from the spec: the simulation driver, which is outside
    [lander.cpp], calls [numerical_dynamics] once per time step; [run n s]
    is the state after [n] steps from [s]. *)
Fixpoint run (n : nat) (s : State) : State :=
  match n with
  | O => s
  | S k => numerical_dynamics (run k s)
  end.

(** ** Relations between states *)

(** Two states hold the same values in the simulator's globals, the
    variables declared in [lander.h]. *)
Definition same_globals (s1 s2 : State) : Prop :=
  position s1 = position s2
  /\ velocity s1 = velocity s2
  /\ orientation s1 = orientation s2
  /\ delta_t s1 = delta_t s2
  /\ throttle s1 = throttle s2
  /\ fuel s1 = fuel s2
  /\ parachute_status s1 = parachute_status s2
  /\ stabilized_attitude s1 = stabilized_attitude s2
  /\ autopilot_enabled s1 = autopilot_enabled s2
  /\ scenario s1 = scenario s2
  /\ scenario_description s1 = scenario_description s2.

(** Two states that no later step can tell apart: the same globals and
    flags, the same [previous_position] once the bootstrap step is over and
    the same [vel_engaged] once the system is engaged.  [current_position]
    is free, and so are [previous_position] before the bootstrap step and
    [vel_engaged] before engagement. *)
Definition same_run_state (s1 s2 : State) : Prop :=
  same_globals s1 s2
  /\ system_engaged s1 = system_engaged s2
  /\ initial_altitude s1 = initial_altitude s2
  /\ first_iteration s1 = first_iteration s2
  /\ (first_iteration s1 <> 1%Z -> previous_position s1 = previous_position s2)
  /\ (system_engaged s1 = true -> vel_engaged s1 = vel_engaged s2).

(** The collaborators read the simulator's globals only, not the variables
    of [lander.cpp]. *)
Definition reads_globals_only : Prop :=
  (forall s1 s2 : State,
      same_globals s1 s2 -> thrust_wrt_world s1 = thrust_wrt_world s2)
  /\ (forall s1 s2 : State,
        same_globals s1 s2 ->
        safe_to_deploy_parachute s1 = safe_to_deploy_parachute s2)
  /\ (forall s1 s2 : State,
        same_globals s1 s2 ->
        attitude_stabilization s1 = attitude_stabilization s2).

(** ** Properties *)

(** *** Comparisons and vectors *)

Lemma Rltb_true (a b : R) : Rltb a b = true <-> a < b.
Proof. unfold Rltb; destruct (Rlt_dec a b); split; intros; (easy || lra). Qed.

Lemma Rltb_false (a b : R) : Rltb a b = false <-> b <= a.
Proof. unfold Rltb; destruct (Rlt_dec a b); split; intros; (easy || lra). Qed.

Lemma Rleb_true (a b : R) : Rleb a b = true <-> a <= b.
Proof. unfold Rleb; destruct (Rle_dec a b); split; intros; (easy || lra). Qed.

Lemma Rleb_false (a b : R) : Rleb a b = false <-> b < a.
Proof. unfold Rleb; destruct (Rle_dec a b); split; intros; (easy || lra). Qed.

(** Case analysis on one comparison, with its meaning in the context. *)
Ltac case_Rltb a b :=
  let H := fresh "Hlt" in
  destruct (Rltb a b) eqn:H;
  [ apply Rltb_true in H | apply Rltb_false in H ].

Ltac case_Rleb a b :=
  let H := fresh "Hle" in
  destruct (Rleb a b) eqn:H;
  [ apply Rleb_true in H | apply Rleb_false in H ].

Lemma vector3d_eq (u v : vector3d) :
  Vec.x u = Vec.x v -> Vec.y u = Vec.y v -> Vec.z u = Vec.z v -> u = v.
Proof. destruct u, v; simpl; intros; subst; reflexivity. Qed.

(** Equations of vectors, component by component. *)
Ltac vec_ring :=
  apply vector3d_eq;
  cbn [Vec.x Vec.y Vec.z Vec.add Vec.sub Vec.scale Vec.times Vec.div];
  try replace 0.5 with (/ 2) by lra;
  field.

(** *** The autopilot, block by block *)

(** The parachute block writes [parachute_status] and nothing else. *)
Lemma parachute_block_frame (s : State) :
  parachute_block s = set_parachute_status (parachute_status (parachute_block s)) s.
Proof.
  unfold parachute_block.
  destruct (Rltb (h s) (chute_engage s) && _), (safe_to_deploy_parachute s);
    destruct s; reflexivity.
Qed.

(** An invocation that begins engaged: the parachute block, then the
    throttle block. *)
Lemma autopilot_engaged (g_force mass : R) (s : State) :
  system_engaged s = true ->
  autopilot g_force mass s
  = set_throttle
      (throttle_block (weight_throttle g_force) (power_output s) (throttle s))
      (parachute_block s).
Proof.
  intros He.
  unfold autopilot, parachute_block, throttle_block, power_output, e, Kh,
    h, vel_radial, chute_engage, alt_engage, weight_throttle, Kp.
  cbv zeta.
  destruct (Rltb _ _ && parachute_status_eqb _ _), (safe_to_deploy_parachute s);
    destruct s; simpl in *; subst; simpl;
    destruct (Rleb _ _); destruct (Rltb _ _ && Rltb _ _); reflexivity.
Qed.

(** An invocation that begins disengaged: the parachute block, then the
    engagement test. *)
Lemma autopilot_disengaged (g_force mass : R) (s : State) :
  system_engaged s = false ->
  autopilot g_force mass s
  = if Rltb (h s) (alt_engage s)
    then set_vel_engaged (vel_radial s)
           (set_system_engaged true (parachute_block s))
    else parachute_block s.
Proof.
  intros He.
  unfold autopilot, parachute_block, h, vel_radial, chute_engage, alt_engage.
  cbv zeta.
  destruct (Rltb _ _ && parachute_status_eqb _ _), (safe_to_deploy_parachute s);
    destruct s; simpl in *; subst; simpl;
    destruct (Rltb _ _); reflexivity.
Qed.

(** *** The throttle block (lines 59-69) *)

(** At or below the cut-off boundary the first [if] stores 0, the second
    [if] fails and its [else] stores 1. *)
Lemma throttle_block_cutoff (w p t : R) :
  p <= - w -> throttle_block w p t = 1.
Proof.
  intros Hp. unfold throttle_block.
  case_Rleb p (- w); case_Rltb (- w) p; simpl; try reflexivity; lra.
Qed.

Lemma throttle_block_linear (w p t : R) :
  - w < p < 1 - w -> throttle_block w p t = w + p.
Proof.
  intros [Hlo Hhi]. unfold throttle_block.
  case_Rltb (- w) p; case_Rltb p (1 - w); simpl; try reflexivity; lra.
Qed.

Lemma throttle_block_saturated (w p t : R) :
  1 - w <= p -> throttle_block w p t = 1.
Proof.
  intros Hp. unfold throttle_block.
  case_Rltb (- w) p; case_Rltb p (1 - w); simpl; try reflexivity; lra.
Qed.

(** The value the block leaves never depends on the value it found. *)
Lemma throttle_block_cases (w p t : R) :
  (- w < p < 1 - w /\ throttle_block w p t = w + p)
  \/ ((p <= - w \/ 1 - w <= p) /\ throttle_block w p t = 1).
Proof.
  destruct (Rle_dec p (- w)) as [Hlo | Hlo].
  - right. split; [left; exact Hlo | apply throttle_block_cutoff; exact Hlo].
  - destruct (Rlt_dec p (1 - w)) as [Hhi | Hhi].
    + left. split; [lra | apply throttle_block_linear; lra].
    + right. split; [right; lra | apply throttle_block_saturated; lra].
Qed.

Lemma spec_throttle_mapping_cutoff (w p : R) :
  p <= - w -> spec_throttle_mapping w p = 0.
Proof.
  intros Hp. unfold spec_throttle_mapping.
  case_Rleb p (- w); [reflexivity | lra].
Qed.

(** Above the cut-off boundary the code and the three chained branches of
    the specification agree. *)
Lemma throttle_block_meets_spec_above_cutoff (w p t : R) :
  - w < p -> throttle_block w p t = spec_throttle_mapping w p.
Proof.
  intros Hp. unfold spec_throttle_mapping.
  case_Rleb p (- w); [lra |].
  case_Rltb p (1 - w).
  - apply throttle_block_linear; lra.
  - apply throttle_block_saturated; lra.
Qed.

Lemma throttle_of_engaged (g_force mass : R) (s : State) :
  system_engaged s = true ->
  throttle (autopilot g_force mass s)
  = throttle_block (weight_throttle g_force) (power_output s) (throttle s).
Proof. intros He. rewrite autopilot_engaged by exact He. reflexivity. Qed.

(** The upper boundary is a point of continuity of the law. *)
Lemma throttle_block_continuous_at_saturation (w t : R) :
  continuity_pt (fun p => throttle_block w p t) (1 - w).
Proof.
  intros eps Heps. exists (Rmin eps 1). split.
  - apply Rmin_pos; lra.
  - intros x [_ Hd]. simpl in Hd |- *. unfold R_dist in *.
    rewrite (throttle_block_saturated w (1 - w) t) by lra.
    assert (Hx : Rabs (x - (1 - w)) < eps /\ Rabs (x - (1 - w)) < 1).
    { split; eapply Rlt_le_trans; try exact Hd;
        [apply Rmin_l | apply Rmin_r]. }
    destruct Hx as [Hx1 Hx2].
    destruct (throttle_block_cases w x t) as [[Hr ->] | [_ ->]].
    + replace (w + x - 1) with (x - (1 - w)) by ring. exact Hx1.
    + replace (1 - 1) with 0 by ring. rewrite Rabs_R0. exact Heps.
Qed.

(** C4: whenever the autopilot writes the throttle (the invocation begins
    engaged) the value written lies in [0,1], and an invocation that finds
    the throttle in [0,1] leaves it there. *)
Theorem autopilot_throttle_in_unit_interval (g_force mass : R) (s : State) :
  system_engaged s = true \/ 0 <= throttle s <= 1 ->
  0 <= throttle (autopilot g_force mass s) <= 1.
Proof.
  intros Hs.
  destruct (system_engaged s) eqn:He.
  - rewrite throttle_of_engaged by exact He.
    destruct (throttle_block_cases (weight_throttle g_force)
                (power_output s) (throttle s)) as [[Hr ->] | [_ ->]]; lra.
  - destruct Hs as [Hs | Hs]; [discriminate |].
    rewrite autopilot_disengaged by exact He.
    rewrite parachute_block_frame.
    destruct (Rltb (h s) (alt_engage s)); simpl; exact Hs.
Qed.

(** C8: an invocation that begins disengaged leaves the throttle as it
    found it, also when that invocation engages the system. *)
Theorem autopilot_disengaged_keeps_throttle (g_force mass : R) (s : State) :
  system_engaged s = false ->
  throttle (autopilot g_force mass s) = throttle s
  /\ (h s < alt_engage s ->
      system_engaged (autopilot g_force mass s) = true
      /\ throttle (autopilot g_force mass s) = throttle s).
Proof.
  intros He.
  rewrite autopilot_disengaged by exact He.
  rewrite parachute_block_frame.
  case_Rltb (h s) (alt_engage s); simpl; split; try reflexivity.
  - intros _. split; reflexivity.
  - intros Hlt'. lra.
Qed.

(** C10: an invocation that begins engaged writes a throttle that is
    strictly positive: a value of the open interval (0,1) in the linear
    region and exactly 1 everywhere else, never 0. *)
Theorem autopilot_engaged_throttle_positive (g_force mass : R) (s : State) :
  system_engaged s = true ->
  let t := throttle (autopilot g_force mass s) in
  let w := weight_throttle g_force in
  let p := power_output s in
  0 < t
  /\ ((- w < p < 1 - w /\ t = w + p /\ 0 < t < 1)
      \/ ((p <= - w \/ 1 - w <= p) /\ t = 1))
  /\ t <> 0.
Proof.
  intros He t w p. subst t.
  rewrite throttle_of_engaged by exact He. fold w p.
  destruct (throttle_block_cases w p (throttle s)) as [[Hr ->] | [Hr ->]].
  - split; [lra | split; [| lra]].
    left. repeat split; lra.
  - split; [lra | split; [| lra]].
    right. split; [exact Hr | reflexivity].
Qed.

(** C3, evaluated on the code: at the cut-off boundary
    [power_output = - weight_throttle] the block leaves 1, just inside the
    linear region it leaves a value as close to 0 as one likes, so the law
    is not continuous there. *)
Theorem throttle_block_jump_at_cutoff (w t : R) :
  throttle_block w (- w) t = 1
  /\ (forall d, 0 < d < 1 -> throttle_block w (- w + d) t = d)
  /\ ~ continuity_pt (fun p => throttle_block w p t) (- w).
Proof.
  assert (Hat : throttle_block w (- w) t = 1)
    by (apply throttle_block_cutoff; lra).
  assert (Hin : forall d, 0 < d < 1 -> throttle_block w (- w + d) t = d).
  { intros d Hd. rewrite throttle_block_linear by lra. ring. }
  split; [exact Hat | split; [exact Hin |]].
  intros Hc.
  destruct (Hc (1 / 2)) as [alp [Halp Hlim]]; [lra |].
  set (d := Rmin (alp / 2) (1 / 4)).
  assert (Hd : 0 < d <= alp / 2 /\ d <= 1 / 4).
  { unfold d. repeat split;
      [apply Rmin_pos; lra | apply Rmin_l | apply Rmin_r]. }
  specialize (Hlim (- w + d)).
  simpl in Hlim. unfold R_dist in Hlim.
  rewrite Hat, Hin in Hlim by lra.
  assert (Hgap : Rabs (d - 1) < 1 / 2).
  { apply Hlim. split.
    - split; [exact I | lra].
    - replace (- w + d - - w) with d by ring.
      rewrite Rabs_pos_eq by lra. lra. }
  rewrite Rabs_left in Hgap by lra. lra.
Qed.

(** *** What each function writes *)

Lemma autopilot_writes (g_force mass : R) (s : State) :
  let s' := autopilot g_force mass s in
  s' = set_throttle (throttle s')
         (set_vel_engaged (vel_engaged s')
            (set_system_engaged (system_engaged s')
               (set_parachute_status (parachute_status s') s))).
Proof.
  unfold autopilot. cbv zeta.
  repeat match goal with
         | |- context [if ?c then _ else _] => destruct c
         end; destruct s; reflexivity.
Qed.

Lemma verlet_writes (a : vector3d) (s : State) :
  let s' := verlet a s in
  s' = set_first_iteration (first_iteration s')
         (set_current_position (current_position s')
            (set_previous_position (previous_position s')
               (set_velocity (velocity s')
                  (set_position (position s') s)))).
Proof.
  unfold verlet. cbv zeta.
  destruct (Z.eqb (first_iteration s) 1); destruct s; reflexivity.
Qed.

Lemma numerical_dynamics_steps (s : State) :
  numerical_dynamics s
  = if stabilized_attitude (piloted s)
    then set_orientation (attitude_stabilization (piloted s)) (piloted s)
    else piloted s.
Proof. reflexivity. Qed.

(** What one step leaves alone, and where each written variable gets its
    value. *)
Ltac step_field :=
  rewrite numerical_dynamics_steps;
  destruct (stabilized_attitude (piloted _)); simpl;
  unfold piloted, integrated; cbv zeta;
  try (destruct (autopilot_enabled (verlet _ _)); [rewrite autopilot_writes |]);
  simpl; try reflexivity;
  try (rewrite verlet_writes; reflexivity).

Lemma step_position (s : State) :
  position (numerical_dynamics s) = position (integrated s).
Proof. step_field. Qed.

Lemma step_velocity (s : State) :
  velocity (numerical_dynamics s) = velocity (integrated s).
Proof. step_field. Qed.

Lemma step_previous_position (s : State) :
  previous_position (numerical_dynamics s) = previous_position (integrated s).
Proof. step_field. Qed.

Lemma step_first_iteration (s : State) :
  first_iteration (numerical_dynamics s) = first_iteration (integrated s).
Proof. step_field. Qed.

Lemma step_delta_t (s : State) :
  delta_t (numerical_dynamics s) = delta_t s.
Proof. step_field. Qed.

Lemma step_autopilot_enabled (s : State) :
  autopilot_enabled (numerical_dynamics s) = autopilot_enabled s.
Proof. step_field. Qed.

Lemma step_initial_altitude (s : State) :
  initial_altitude (numerical_dynamics s) = initial_altitude s.
Proof. step_field. Qed.

Lemma step_system_engaged (s : State) :
  system_engaged (numerical_dynamics s) = system_engaged (piloted s).
Proof.
  rewrite numerical_dynamics_steps.
  destruct (stabilized_attitude (piloted s)); reflexivity.
Qed.

Lemma step_vel_engaged (s : State) :
  vel_engaged (numerical_dynamics s) = vel_engaged (piloted s).
Proof.
  rewrite numerical_dynamics_steps.
  destruct (stabilized_attitude (piloted s)); reflexivity.
Qed.

Lemma step_parachute_status (s : State) :
  parachute_status (numerical_dynamics s) = parachute_status (piloted s).
Proof.
  rewrite numerical_dynamics_steps.
  destruct (stabilized_attitude (piloted s)); reflexivity.
Qed.

Lemma integrated_keeps_autopilot_state (s : State) :
  system_engaged (integrated s) = system_engaged s
  /\ vel_engaged (integrated s) = vel_engaged s
  /\ parachute_status (integrated s) = parachute_status s
  /\ autopilot_enabled (integrated s) = autopilot_enabled s
  /\ initial_altitude (integrated s) = initial_altitude s
  /\ throttle (integrated s) = throttle s.
Proof.
  unfold integrated. rewrite verlet_writes. simpl. repeat split.
Qed.

(** *** The integrator (lines 103-115) *)

Lemma verlet_bootstrap (a : vector3d) (s : State) :
  first_iteration s = 1%Z ->
  let s' := verlet a s in
  position s'
  = (position s + velocity s :* delta_t s
     + 0.5 * delta_t s * delta_t s *: a)%vec
  /\ previous_position s' = position s
  /\ velocity s'
     = central_difference (position s') (previous_position s') a (delta_t s)
  /\ first_iteration s' = 0%Z
  /\ delta_t s' = delta_t s.
Proof.
  intros H1. unfold verlet. rewrite H1. simpl. repeat split.
Qed.

Lemma verlet_steady (a : vector3d) (s : State) :
  first_iteration s <> 1%Z ->
  let s' := verlet a s in
  position s'
  = (2 *: position s - previous_position s
     + a :* delta_t s :* delta_t s)%vec
  /\ previous_position s' = position s
  /\ velocity s'
     = central_difference (position s') (previous_position s') a (delta_t s)
  /\ first_iteration s' = first_iteration s
  /\ delta_t s' = delta_t s.
Proof.
  intros H1. unfold verlet.
  destruct (Z.eqb_spec (first_iteration s) 1) as [E | _]; [contradiction |].
  simpl. repeat split.
Qed.

(** C5: a call of the integrator after the first (the bootstrap call
    leaves [first_iteration] at 0 and no later call sets it back to 1)
    computes the new position as [2 * current - previous + a * dt^2], stores
    the old current position as the previous one and derives the velocity
    from the new position, the updated previous position and [a * dt^2] by
    [central_difference], the formula the bootstrap call uses too. *)
Theorem steady_state_step (s : State) :
  first_iteration s <> 1%Z ->
  let a := acceleration s in
  let dt := delta_t s in
  let s' := numerical_dynamics s in
  position s' = (2 *: position s - previous_position s + a :* (dt * dt))%vec
  /\ previous_position s' = position s
  /\ velocity s' = central_difference (position s') (previous_position s') a dt
  /\ first_iteration s' <> 1%Z
  /\ (forall s0 : State,
        first_iteration s0 = 1%Z ->
        let s0' := numerical_dynamics s0 in
        velocity s0'
        = central_difference (position s0') (previous_position s0')
            (acceleration s0) (delta_t s0)
        /\ first_iteration s0' <> 1%Z).
Proof.
  intros H1 a dt s'. subst s'.
  rewrite step_position, step_previous_position, step_velocity,
    step_first_iteration.
  destruct (verlet_steady (acceleration s) s H1) as (Hp & Hq & Hv & Hf & _).
  fold (integrated s) in Hp, Hq, Hv, Hf. fold a dt in Hp, Hv.
  repeat split.
  - rewrite Hp. vec_ring.
  - exact Hq.
  - exact Hv.
  - rewrite Hf. exact H1.
  - rewrite step_position, step_previous_position, step_velocity.
    apply (verlet_bootstrap (acceleration s0) s0 H).
  - rewrite step_first_iteration.
    destruct (verlet_bootstrap (acceleration s0) s0 H) as (_ & _ & _ & Hf0 & _).
    fold (integrated s0) in Hf0. rewrite Hf0. discriminate.
Qed.

(** Positions of uniformly accelerated motion from rest:
    [p0 + 0.5 * a * t^2]. *)
Lemma run_constant_acceleration (a : vector3d) (s0 : State) :
  first_iteration s0 = 1%Z ->
  velocity s0 = Vec.mk 0 0 0 ->
  forall n : nat,
    (forall k : nat, (k <= n)%nat -> acceleration (run k s0) = a) ->
    let t (k : nat) := INR k * delta_t s0 in
    first_iteration (run (S n) s0) = 0%Z
    /\ delta_t (run (S n) s0) = delta_t s0
    /\ position (run (S n) s0)
       = (position s0 + 0.5 * (t (S n) * t (S n)) *: a)%vec
    /\ previous_position (run (S n) s0)
       = (position s0 + 0.5 * (t n * t n) *: a)%vec.
Proof.
  intros H1 Hv n. induction n as [| n IH]; intros Ha t.
  - simpl run.
    rewrite step_first_iteration, step_delta_t, step_position,
      step_previous_position.
    destruct (verlet_bootstrap (acceleration s0) s0 H1)
      as (Hp & Hq & _ & Hf & _).
    fold (integrated s0) in Hp, Hq, Hf.
    assert (Ha0 : acceleration s0 = a) by (apply (Ha 0%nat); lia).
    rewrite Ha0 in Hp.
    repeat split; try assumption.
    + rewrite Hp, Hv. unfold t. change (INR 1) with 1. vec_ring.
    + rewrite Hq. unfold t. change (INR 0) with 0. vec_ring.
  - destruct IH as (Hf & Hd & Hp & Hq); [intros k Hk; apply Ha; lia |].
    change (run (S (S n)) s0) with (numerical_dynamics (run (S n) s0)).
    rewrite step_first_iteration, step_delta_t, step_position,
      step_previous_position.
    assert (Hne : first_iteration (run (S n) s0) <> 1%Z)
      by (rewrite Hf; discriminate).
    destruct (verlet_steady (acceleration (run (S n) s0)) (run (S n) s0) Hne)
      as (Hp' & Hq' & _ & Hf' & _).
    fold (integrated (run (S n) s0)) in Hp', Hq', Hf'.
    rewrite (Ha (S n)) in Hp' by lia.
    repeat split.
    + rewrite Hf'. exact Hf.
    + exact Hd.
    + rewrite Hp', Hp, Hq, Hd. unfold t. rewrite !S_INR.
      vec_ring.
    + rewrite Hq', Hp. reflexivity.
Qed.

(** C2: the bootstrap call moves the position to
    [previous_position + velocity * dt + 0.5 * a * dt^2], the previous
    position being the position at entry; from rest and under a constant
    acceleration [a] the position after that call is
    [p0 + 0.5 * a * dt^2], and after [n] calls it is
    [p0 + 0.5 * a * (n * dt)^2]. *)
Theorem bootstrap_then_kinematics (s0 : State) :
  first_iteration s0 = 1%Z ->
  let dt := delta_t s0 in
  let p0 := position s0 in
  (previous_position (numerical_dynamics s0) = p0
   /\ position (numerical_dynamics s0)
      = (p0 + velocity s0 :* dt + (0.5 *: acceleration s0) :* (dt * dt))%vec)
  /\ (forall a : vector3d,
        velocity s0 = Vec.mk 0 0 0 ->
        acceleration s0 = a ->
        position (numerical_dynamics s0)
        = (p0 + (0.5 *: a) :* (dt * dt))%vec)
  /\ (forall (a : vector3d) (n : nat),
        velocity s0 = Vec.mk 0 0 0 ->
        (forall k : nat, (k < n)%nat -> acceleration (run k s0) = a) ->
        let t := INR n * dt in
        position (run n s0) = (p0 + (0.5 *: a) :* (t * t))%vec).
Proof.
  intros H1 dt p0. subst dt p0.
  destruct (verlet_bootstrap (acceleration s0) s0 H1) as (Hp & Hq & _).
  fold (integrated s0) in Hp, Hq.
  assert (Hpos : position (numerical_dynamics s0)
                 = (position s0 + velocity s0 :* delta_t s0
                    + (0.5 *: acceleration s0)
                      :* (delta_t s0 * delta_t s0))%vec).
  { rewrite step_position, Hp. vec_ring. }
  split; [| split].
  - split; [rewrite step_previous_position; exact Hq | exact Hpos].
  - intros a Hv Ha. rewrite Hpos, Hv, Ha.
    vec_ring.
  - intros a [| n] Hv Ha t.
    + subst t. change (INR 0) with 0. simpl run. vec_ring.
    + destruct (run_constant_acceleration a s0 H1 Hv n) as (_ & _ & Hn & _).
      { intros k Hk. apply Ha. lia. }
      rewrite Hn. subst t. vec_ring.
Qed.

(** *** Engagement (lines 44-51) *)

Lemma autopilot_latched (g_force mass : R) (s : State) :
  system_engaged s = true ->
  system_engaged (autopilot g_force mass s) = true
  /\ vel_engaged (autopilot g_force mass s) = vel_engaged s.
Proof.
  intros He. rewrite autopilot_engaged by exact He.
  rewrite parachute_block_frame. simpl. split; [exact He | reflexivity].
Qed.

Lemma autopilot_engages (g_force mass : R) (s : State) :
  system_engaged s = false ->
  h s < alt_engage s ->
  system_engaged (autopilot g_force mass s) = true
  /\ vel_engaged (autopilot g_force mass s) = vel_radial s.
Proof.
  intros He Hh. rewrite autopilot_disengaged by exact He.
  case_Rltb (h s) (alt_engage s); [| lra]. simpl. split; reflexivity.
Qed.

Lemma autopilot_stays_disengaged (g_force mass : R) (s : State) :
  system_engaged s = false ->
  ~ h s < alt_engage s ->
  system_engaged (autopilot g_force mass s) = false
  /\ vel_engaged (autopilot g_force mass s) = vel_engaged s.
Proof.
  intros He Hh. rewrite autopilot_disengaged by exact He.
  case_Rltb (h s) (alt_engage s); [contradiction |].
  rewrite parachute_block_frame. simpl. split; [exact He | reflexivity].
Qed.

Lemma run_autopilot_enabled (s0 : State) (n : nat) :
  autopilot_enabled (run n s0) = autopilot_enabled s0.
Proof.
  induction n as [| n IH]; [reflexivity |].
  simpl. rewrite step_autopilot_enabled. exact IH.
Qed.

Lemma piloted_enabled (s : State) :
  autopilot_enabled s = true ->
  piloted s = autopilot (Vec.abs (g_force_of s)) (mass_of s) (integrated s).
Proof.
  intros Hen. unfold piloted. cbv zeta.
  destruct (integrated_keeps_autopilot_state s) as (_ & _ & _ & Hae & _).
  rewrite Hae, Hen. reflexivity.
Qed.

Lemma piloted_disabled (s : State) :
  autopilot_enabled s = false -> piloted s = integrated s.
Proof.
  intros Hen. unfold piloted. cbv zeta.
  destruct (integrated_keeps_autopilot_state s) as (_ & _ & _ & Hae & _).
  rewrite Hae, Hen. reflexivity.
Qed.

(** C6: in a run with the autopilot enabled that starts disengaged, let
    [n] be the first call on which [h < alt_engage].  The system is
    disengaged up to that call and engaged after it and ever after, so the
    transition fires at call [n] and at no other; the radial velocity of
    call [n] is stored in [vel_engaged] and every later state of the run
    holds that same value.  An invocation that begins engaged never
    writes [vel_engaged]. *)
Theorem engagement_fires_once_and_latches (s0 : State) (n : nat) :
  autopilot_enabled s0 = true ->
  system_engaged s0 = false ->
  (forall k : nat, (k < n)%nat ->
     ~ h (integrated (run k s0)) < alt_engage (integrated (run k s0))) ->
  h (integrated (run n s0)) < alt_engage (integrated (run n s0)) ->
  (forall k : nat, (k <= n)%nat -> system_engaged (run k s0) = false)
  /\ (forall j : nat, (n < j)%nat ->
        system_engaged (run j s0) = true
        /\ vel_engaged (run j s0) = vel_radial (integrated (run n s0)))
  /\ (forall k : nat,
        system_engaged (run k s0) = false
        /\ system_engaged (run (S k) s0) = true
        <-> k = n)
  /\ (forall (g_force mass : R) (s : State),
        system_engaged s = true ->
        system_engaged (autopilot g_force mass s) = true
        /\ vel_engaged (autopilot g_force mass s) = vel_engaged s).
Proof.
  intros Hen He0 Hbefore Hat.
  assert (Hstep : forall k : nat,
             numerical_dynamics (run k s0) = run (S k) s0) by reflexivity.
  assert (Hpil : forall k : nat,
             piloted (run k s0)
             = autopilot (Vec.abs (g_force_of (run k s0)))
                 (mass_of (run k s0)) (integrated (run k s0))).
  { intros k. apply piloted_enabled. rewrite run_autopilot_enabled.
    exact Hen. }
  assert (Hin : forall k : nat,
             system_engaged (integrated (run k s0))
             = system_engaged (run k s0)
             /\ vel_engaged (integrated (run k s0))
                = vel_engaged (run k s0)).
  { intros k.
    destruct (integrated_keeps_autopilot_state (run k s0)) as (A & B & _).
    split; assumption. }
  assert (Hlow : forall k : nat,
             (k <= n)%nat -> system_engaged (run k s0) = false).
  { induction k as [| k IH]; intros Hk; [exact He0 |].
    rewrite <- Hstep, step_system_engaged, Hpil.
    apply autopilot_stays_disengaged.
    - rewrite (proj1 (Hin k)). apply IH. lia.
    - apply Hbefore. lia. }
  assert (Hfire : system_engaged (run (S n) s0) = true
                  /\ vel_engaged (run (S n) s0)
                     = vel_radial (integrated (run n s0))).
  { rewrite <- Hstep, step_system_engaged, step_vel_engaged, Hpil.
    apply autopilot_engages; [| exact Hat].
    rewrite (proj1 (Hin n)). apply Hlow. lia. }
  assert (Hhigh : forall j : nat,
             (n < j)%nat ->
             system_engaged (run j s0) = true
             /\ vel_engaged (run j s0)
                = vel_radial (integrated (run n s0))).
  { induction j as [| j IH]; intros Hj; [lia |].
    destruct (Nat.eq_dec j n) as [-> | Hne]; [exact Hfire |].
    destruct IH as [IHe IHv]; [lia |].
    rewrite <- Hstep, step_system_engaged, step_vel_engaged, Hpil.
    destruct (autopilot_latched (Vec.abs (g_force_of (run j s0)))
                (mass_of (run j s0)) (integrated (run j s0))) as [Le Lv].
    { rewrite (proj1 (Hin j)). exact IHe. }
    split; [exact Le |].
    rewrite Lv, (proj2 (Hin j)). exact IHv. }
  split; [exact Hlow | split; [exact Hhigh | split]].
  - intros k. split.
    + intros [Hk HSk].
      destruct (Nat.lt_trichotomy k n) as [Hlt | [Heq | Hgt]].
      * rewrite Hlow in HSk by lia. discriminate.
      * exact Heq.
      * destruct (Hhigh k Hgt) as [Hk' _]. rewrite Hk' in Hk. discriminate.
    + intros ->. split; [apply Hlow; lia | apply Hfire].
  - intros g_force mass s. apply autopilot_latched.
Qed.

(** *** The parachute (lines 35-41) *)

Lemma autopilot_parachute_status (g_force mass : R) (s : State) :
  parachute_status (autopilot g_force mass s)
  = parachute_status (parachute_block s).
Proof.
  destruct (system_engaged s) eqn:He.
  - rewrite autopilot_engaged by exact He. reflexivity.
  - rewrite autopilot_disengaged by exact He.
    destruct (Rltb (h s) (alt_engage s)); reflexivity.
Qed.

Lemma parachute_block_status (s : State) :
  parachute_status (parachute_block s)
  = if Rltb (h s) (chute_engage s)
       && parachute_status_eqb (parachute_status s) NOT_DEPLOYED
       && safe_to_deploy_parachute s
    then DEPLOYED
    else parachute_status s.
Proof.
  unfold parachute_block.
  destruct (Rltb (h s) (chute_engage s) && _), (safe_to_deploy_parachute s);
    reflexivity.
Qed.

Lemma parachute_status_eqb_eq (p q : parachute_status_t) :
  parachute_status_eqb p q = true <-> p = q.
Proof. destruct p, q; simpl; split; intros; (reflexivity || discriminate). Qed.

(** One invocation: the status changes exactly when it is [NOT_DEPLOYED],
    [h < chute_engage] and the safety check says yes, and then it becomes
    [DEPLOYED]. *)
Lemma autopilot_deploys_iff (g_force mass : R) (s : State) :
  let s' := autopilot g_force mass s in
  (parachute_status s = NOT_DEPLOYED
   /\ h s < chute_engage s
   /\ safe_to_deploy_parachute s = true ->
   parachute_status s' = DEPLOYED)
  /\ (parachute_status s' <> parachute_status s ->
      parachute_status s = NOT_DEPLOYED
      /\ parachute_status s' = DEPLOYED
      /\ h s < chute_engage s
      /\ safe_to_deploy_parachute s = true).
Proof.
  cbv zeta. rewrite autopilot_parachute_status, parachute_block_status.
  case_Rltb (h s) (chute_engage s);
    destruct (parachute_status_eqb (parachute_status s) NOT_DEPLOYED) eqn:Hst;
    destruct (safe_to_deploy_parachute s) eqn:Hsafe; simpl; split;
    try (intros (H1 & H2 & H3));
    try (intros Hneq; exfalso; apply Hneq; reflexivity);
    try reflexivity; try discriminate; try lra.
  - intros _. apply parachute_status_eqb_eq in Hst. repeat split; assumption.
  - rewrite H1 in Hst. discriminate.
Qed.

(** C7: the autopilot changes [parachute_status] only from [NOT_DEPLOYED]
    to [DEPLOYED], exactly when [h < chute_engage] and the safety check
    permits it, with [chute_engage = alt_engage - (initial_altitude -
    10000) / 1.943] and [alt_engage = 0.5 * initial_altitude]; in a run
    that starts [NOT_DEPLOYED] and in which every call of the safety check
    returns false the status stays [NOT_DEPLOYED]; [DEPLOYED] and [LOST]
    are never left. *)
Theorem parachute_only_deploys :
  (forall (g_force mass : R) (s : State),
      let s' := autopilot g_force mass s in
      (parachute_status s = NOT_DEPLOYED
       /\ h s < chute_engage s
       /\ safe_to_deploy_parachute s = true ->
       parachute_status s' = DEPLOYED)
      /\ (parachute_status s' <> parachute_status s ->
          parachute_status s = NOT_DEPLOYED
          /\ parachute_status s' = DEPLOYED
          /\ h s < chute_engage s
          /\ safe_to_deploy_parachute s = true))
  /\ (forall s : State,
        chute_engage s
        = alt_engage s - (initial_altitude s - 10000) / 1.943
        /\ alt_engage s = 0.5 * initial_altitude s)
  /\ (forall s0 : State,
        parachute_status s0 = NOT_DEPLOYED ->
        (forall k : nat,
            autopilot_enabled (run k s0) = true ->
            parachute_status (integrated (run k s0)) = NOT_DEPLOYED ->
            h (integrated (run k s0)) < chute_engage (integrated (run k s0)) ->
            safe_to_deploy_parachute (integrated (run k s0)) = false) ->
        forall n : nat, parachute_status (run n s0) = NOT_DEPLOYED)
  /\ (forall (g_force mass : R) (s : State),
        parachute_status s = DEPLOYED \/ parachute_status s = LOST ->
        parachute_status (autopilot g_force mass s) = parachute_status s).
Proof.
  split; [exact autopilot_deploys_iff | split; [| split]].
  - intros s. split; [reflexivity | unfold alt_engage; ring].
  - intros s0 H0 Hsafe n. induction n as [| n IH]; [exact H0 |].
    simpl. rewrite step_parachute_status.
    destruct (integrated_keeps_autopilot_state (run n s0))
      as (_ & _ & Hps & _).
    destruct (autopilot_enabled (run n s0)) eqn:Hen.
    + rewrite piloted_enabled by exact Hen.
      rewrite autopilot_parachute_status, parachute_block_status.
      rewrite Hps, IH. simpl.
      case_Rltb (h (integrated (run n s0)))
        (chute_engage (integrated (run n s0))); simpl; [| reflexivity].
      rewrite Hsafe; [reflexivity | exact Hen | | exact Hlt].
      rewrite Hps. exact IH.
    + rewrite piloted_disabled by exact Hen. rewrite Hps. exact IH.
  - intros g_force mass s Hs.
    rewrite autopilot_parachute_status, parachute_block_status.
    destruct Hs as [-> | ->]; simpl; rewrite andb_false_r; reflexivity.
Qed.

(** *** The scenario initialiser (lines 124-216) *)

Lemma abs_on_y_axis (r : R) : 0 <= r -> Vec.abs (Vec.mk 0.0 (- r) 0.0) = r.
Proof.
  intros Hr. unfold Vec.abs, Vec.abs2. simpl.
  replace (0.0 * 0.0 + - r * - r + 0.0 * 0.0) with (r * r) by lra.
  apply sqrt_square. exact Hr.
Qed.

Lemma initialize_simulation_fields (s : State) :
  let s' := initialize_simulation s in
  first_iteration s' = 1%Z
  /\ system_engaged s' = false
  /\ (scenario s = 1%Z \/ scenario s = 5%Z ->
      autopilot_enabled s' = true
      /\ initial_altitude s' = Vec.abs (position s') - MARS_RADIUS)
  /\ (scenario s <> 1%Z -> scenario s <> 5%Z ->
      initial_altitude s' = initial_altitude s).
Proof.
  unfold initialize_simulation. cbv zeta.
  cbn [scenario set_system_engaged set_first_iteration
       set_scenario_description].
  remember (scenario s) as n eqn:Hn. clear Hn.
  repeat match goal with
         | |- context [match ?p with _ => _ end] => destruct p
         end;
    cbn [first_iteration system_engaged autopilot_enabled initial_altitude
         position set_position set_velocity set_orientation set_delta_t
         set_parachute_status set_stabilized_attitude set_autopilot_enabled
         set_initial_altitude set_system_engaged set_first_iteration
         set_scenario_description];
    (split; [reflexivity | split; [reflexivity | split]]);
    try (intros [Hs | Hs]; try discriminate Hs; split; reflexivity);
    intros H1 H5; try reflexivity;
    exfalso; first [now apply H1 | now apply H5].
Qed.

(** C9, as the code has it: every call sets the bootstrap flag, so that the
    next call of the integrator takes the bootstrap branch and starts from
    the new position, and clears the engagement flag; [initial_altitude] is
    taken from the new starting position in scenarios 1 and 5, the two that
    enable the autopilot, and keeps its value in every other scenario. *)
Theorem initialize_simulation_resets (s : State) :
  let s' := initialize_simulation s in
  first_iteration s' = 1%Z
  /\ previous_position (numerical_dynamics s') = position s'
  /\ system_engaged s' = false
  /\ (scenario s = 1%Z \/ scenario s = 5%Z ->
      autopilot_enabled s' = true
      /\ initial_altitude s' = Vec.abs (position s') - MARS_RADIUS)
  /\ (scenario s <> 1%Z -> scenario s <> 5%Z ->
      initial_altitude s' = initial_altitude s).
Proof.
  intros s'.
  destruct (initialize_simulation_fields s) as (Hf & He & H15 & Hother).
  fold s' in Hf, He, H15, Hother.
  split; [exact Hf | split; [| split; [exact He | split; assumption]]].
  rewrite step_previous_position.
  apply (verlet_bootstrap (acceleration s') s' Hf).
Qed.

(** The two descents start 10 km and [EXOSPHERE] up. *)
Lemma initialize_simulation_descents (s : State) :
  0 <= MARS_RADIUS ->
  0 <= EXOSPHERE ->
  (scenario s = 1%Z -> initial_altitude (initialize_simulation s) = 10000)
  /\ (scenario s = 5%Z -> initial_altitude (initialize_simulation s) = EXOSPHERE).
Proof.
  intros Hr He.
  split; intros Hs; unfold initialize_simulation; cbv zeta;
    cbn [scenario set_system_engaged set_first_iteration
         set_scenario_description];
    rewrite Hs;
    cbn [initial_altitude position set_position set_velocity set_orientation
         set_delta_t set_parachute_status set_stabilized_attitude
         set_autopilot_enabled set_initial_altitude];
    rewrite abs_on_y_axis by lra; lra.
Qed.

(** The positions the first two calls of the integrator hand to the
    autopilot. *)
Lemma integrated_first (s : State) :
  first_iteration s = 1%Z ->
  position (integrated s)
  = (position s + velocity s :* delta_t s
     + 0.5 * delta_t s * delta_t s *: acceleration s)%vec.
Proof.
  intros H1. apply (verlet_bootstrap (acceleration s) s H1).
Qed.

Lemma integrated_second (s : State) :
  first_iteration s = 1%Z ->
  position (integrated (numerical_dynamics s))
  = (2 *: position (integrated s) - position s
     + acceleration (numerical_dynamics s) :* delta_t s :* delta_t s)%vec.
Proof.
  intros H1.
  destruct (verlet_bootstrap (acceleration s) s H1) as (_ & Hq & _ & Hf & _).
  fold (integrated s) in Hq, Hf.
  assert (Hne : first_iteration (numerical_dynamics s) <> 1%Z).
  { rewrite step_first_iteration, Hf. discriminate. }
  destruct (verlet_steady (acceleration (numerical_dynamics s))
              (numerical_dynamics s) Hne) as (Hp & _).
  fold (integrated (numerical_dynamics s)) in Hp.
  rewrite Hp, step_position, step_previous_position, step_delta_t, Hq.
  reflexivity.
Qed.

(** *** A lander on the negative [y] axis *)

Lemma abs_of_square (v : vector3d) (r : R) :
  0 <= r -> Vec.abs2 v = r * r -> Vec.abs v = r.
Proof.
  intros Hr Hv. unfold Vec.abs. rewrite Hv. apply sqrt_square. exact Hr.
Qed.

Lemma on_y_axis (s : State) (r : R) :
  0 < r ->
  position s = Vec.mk 0 (- r) 0 ->
  h s = r - MARS_RADIUS /\ vel_radial s = - Vec.y (velocity s).
Proof.
  intros Hr Hp.
  assert (Habs : Vec.abs (position s) = r).
  { apply abs_of_square; [lra |]. rewrite Hp. unfold Vec.abs2. simpl. ring. }
  unfold h, vel_radial, Vec.norm, Vec.dot, Vec.div.
  rewrite Habs, Hp. simpl. split; [reflexivity | field; lra].
Qed.

(** ** Further properties *)

(** *** The integrator on uniformly accelerated motion *)

(** The two branches of the integrator, on the state it hands on. *)
Lemma integrated_bootstrap (s : State) :
  first_iteration s = 1%Z ->
  position (integrated s)
  = (position s + velocity s :* delta_t s
     + 0.5 * delta_t s * delta_t s *: acceleration s)%vec
  /\ previous_position (integrated s) = position s
  /\ velocity (integrated s)
     = central_difference (position (integrated s))
         (previous_position (integrated s)) (acceleration s) (delta_t s)
  /\ first_iteration (integrated s) = 0%Z
  /\ delta_t (integrated s) = delta_t s.
Proof. intros H1. exact (verlet_bootstrap (acceleration s) s H1). Qed.

Lemma integrated_steady (s : State) :
  first_iteration s <> 1%Z ->
  position (integrated s)
  = (2 *: position s - previous_position s
     + acceleration s :* delta_t s :* delta_t s)%vec
  /\ previous_position (integrated s) = position s
  /\ velocity (integrated s)
     = central_difference (position (integrated s))
         (previous_position (integrated s)) (acceleration s) (delta_t s)
  /\ first_iteration (integrated s) = first_iteration s
  /\ delta_t (integrated s) = delta_t s.
Proof. intros H1. exact (verlet_steady (acceleration s) s H1). Qed.

Lemma step_throttle (s : State) :
  throttle (numerical_dynamics s) = throttle (piloted s).
Proof.
  rewrite numerical_dynamics_steps.
  destruct (stabilized_attitude (piloted s)); reflexivity.
Qed.

(** The state of the integrator after [n + 1] calls under the constant
    acceleration [a], from any initial velocity. *)
Lemma run_uniform_positions (a : vector3d) (s0 : State) :
  first_iteration s0 = 1%Z ->
  forall n : nat,
    (forall k : nat, (k <= n)%nat -> acceleration (run k s0) = a) ->
    let t (k : nat) := INR k * delta_t s0 in
    let p (k : nat) :=
      (position s0 + velocity s0 :* t k + 0.5 * (t k * t k) *: a)%vec in
    first_iteration (run (S n) s0) = 0%Z
    /\ delta_t (run (S n) s0) = delta_t s0
    /\ position (run (S n) s0) = p (S n)
    /\ previous_position (run (S n) s0) = p n
    /\ velocity (run (S n) s0)
       = central_difference (p (S n)) (p n) a (delta_t s0).
Proof.
  intros H1 n. induction n as [| n IH]; intros Ha t p.
  - simpl run.
    rewrite step_first_iteration, step_delta_t, step_position,
      step_previous_position, step_velocity.
    destruct (integrated_bootstrap s0 H1)
      as (Hp & Hq & Hv & Hf & _).
    assert (Ha0 : acceleration s0 = a) by (apply (Ha 0%nat); lia).
    rewrite Ha0 in Hp, Hv.
    assert (Hp1 : position (integrated s0) = p 1%nat).
    { rewrite Hp. unfold p, t. change (INR 1) with 1. vec_ring. }
    assert (Hq1 : previous_position (integrated s0) = p 0%nat).
    { rewrite Hq. unfold p, t. change (INR 0) with 0. vec_ring. }
    repeat split; try assumption.
    rewrite Hv, Hp1, Hq1. reflexivity.
  - destruct IH as (Hf & Hd & Hp & Hq & _); [intros k Hk; apply Ha; lia |].
    fold t in Hp, Hq. fold p in Hp, Hq.
    change (run (S (S n)) s0) with (numerical_dynamics (run (S n) s0)).
    rewrite step_first_iteration, step_delta_t, step_position,
      step_previous_position, step_velocity.
    assert (Hne : first_iteration (run (S n) s0) <> 1%Z)
      by (rewrite Hf; discriminate).
    destruct (integrated_steady (run (S n) s0) Hne)
      as (Hp' & Hq' & Hv' & Hf' & _).
    rewrite (Ha (S n)) in Hp', Hv' by lia.
    assert (Hp2 : position (integrated (run (S n) s0)) = p (S (S n))).
    { rewrite Hp', Hp, Hq, Hd. unfold p, t. rewrite !S_INR. vec_ring. }
    assert (Hq2 : previous_position (integrated (run (S n) s0)) = p (S n)).
    { rewrite Hq', Hp. reflexivity. }
    repeat split.
    + rewrite Hf'. exact Hf.
    + exact Hd.
    + exact Hp2.
    + exact Hq2.
    + rewrite Hv', Hp2, Hq2, Hd. reflexivity.
Qed.

(** X1: under a constant acceleration [a] and a time step different from 0
    the integrator is exact, from any initial velocity: after [n + 1] calls,
    at time [t = (n + 1) * dt], the position is [p0 + v0 * t + 0.5 * a * t^2]
    and the velocity is [v0 + a * t]. *)
Theorem run_uniform_acceleration (a : vector3d) (s0 : State) (n : nat) :
  first_iteration s0 = 1%Z ->
  delta_t s0 <> 0 ->
  (forall k : nat, (k <= n)%nat -> acceleration (run k s0) = a) ->
  let t := INR (S n) * delta_t s0 in
  position (run (S n) s0)
  = (position s0 + velocity s0 :* t + (0.5 *: a) :* (t * t))%vec
  /\ velocity (run (S n) s0) = (velocity s0 + a :* t)%vec.
Proof.
  intros H1 Hdt Ha t. subst t.
  destruct (run_uniform_positions a s0 H1 n Ha) as (_ & _ & Hp & _ & Hv).
  split.
  - rewrite Hp. vec_ring.
  - rewrite Hv. unfold central_difference. rewrite !S_INR.
    apply vector3d_eq;
      cbn [Vec.x Vec.y Vec.z Vec.add Vec.sub Vec.scale Vec.times Vec.div];
      replace 0.5 with (/ 2) by lra; field; exact Hdt.
Qed.

(** X2: with a time step different from 0 the velocity formula of both
    branches reduces: the bootstrap call leaves [velocity + a * dt], a later
    call leaves the backward difference of the positions plus half a step of
    acceleration, [(new position - old position) / dt + a * (dt / 2)]. *)
Theorem integrator_velocity_reduced (s : State) :
  delta_t s <> 0 ->
  let a := acceleration s in
  let dt := delta_t s in
  let s' := numerical_dynamics s in
  (first_iteration s = 1%Z -> velocity s' = (velocity s + a :* dt)%vec)
  /\ (first_iteration s <> 1%Z ->
      velocity s' = ((position s' - position s) :/ dt + a :* (dt / 2))%vec).
Proof.
  intros Hdt a dt s'. subst a dt s'.
  rewrite step_velocity, step_position.
  split; intros H1.
  - destruct (integrated_bootstrap s H1) as (Hp & Hq & Hv & _).
    rewrite Hv, Hq, Hp. unfold central_difference.
    apply vector3d_eq;
      cbn [Vec.x Vec.y Vec.z Vec.add Vec.sub Vec.scale Vec.times Vec.div];
      replace 0.5 with (/ 2) by lra; field; exact Hdt.
  - destruct (integrated_steady s H1) as (Hp & Hq & Hv & _).
    rewrite Hv, Hq. unfold central_difference.
    apply vector3d_eq;
      cbn [Vec.x Vec.y Vec.z Vec.add Vec.sub Vec.scale Vec.times Vec.div];
      replace 0.5 with (/ 2) by lra; field; exact Hdt.
Qed.

(** *** What a step never writes *)

(** X3: a call of [numerical_dynamics] never changes the time step, the
    fuel, the scenario and its descriptions, [initial_altitude] or the two
    switches; with the autopilot switched off it changes neither the
    throttle nor the parachute nor the engagement state, and with the
    stabiliser switched off it leaves the orientation. *)
Theorem numerical_dynamics_frame (s : State) :
  let s' := numerical_dynamics s in
  (delta_t s' = delta_t s
   /\ fuel s' = fuel s
   /\ scenario s' = scenario s
   /\ scenario_description s' = scenario_description s
   /\ initial_altitude s' = initial_altitude s
   /\ autopilot_enabled s' = autopilot_enabled s
   /\ stabilized_attitude s' = stabilized_attitude s)
  /\ (autopilot_enabled s = false ->
      throttle s' = throttle s
      /\ parachute_status s' = parachute_status s
      /\ system_engaged s' = system_engaged s
      /\ vel_engaged s' = vel_engaged s)
  /\ (stabilized_attitude s = false -> orientation s' = orientation s).
Proof.
  cbv zeta. split; [| split].
  - repeat split; step_field.
  - intros Hoff.
    rewrite step_throttle, step_parachute_status, step_system_engaged,
      step_vel_engaged, (piloted_disabled s Hoff).
    unfold integrated. rewrite verlet_writes. simpl. repeat split.
  - intros Hoff.
    assert (Hst : stabilized_attitude (piloted s) = false).
    { unfold piloted, integrated. cbv zeta.
      destruct (autopilot_enabled (verlet _ _));
        [rewrite autopilot_writes |]; simpl;
        rewrite verlet_writes; exact Hoff. }
    rewrite numerical_dynamics_steps, Hst.
    unfold piloted, integrated. cbv zeta.
    destruct (autopilot_enabled (verlet _ _));
      [rewrite autopilot_writes |]; simpl;
      rewrite verlet_writes; reflexivity.
Qed.

(** *** The autopilot above and at its thresholds *)

(** X4: a disengaged autopilot at or above [alt_engage] that does not deploy
    the parachute (the lander is at or above [chute_engage], or the
    parachute is not [NOT_DEPLOYED], or the safety check refuses) changes
    nothing at all. *)
Theorem autopilot_inert_above_thresholds (g_force mass : R) (s : State) :
  system_engaged s = false ->
  alt_engage s <= h s ->
  chute_engage s <= h s
  \/ parachute_status s <> NOT_DEPLOYED
  \/ safe_to_deploy_parachute s = false ->
  autopilot g_force mass s = s.
Proof.
  intros He Halt Hchute.
  rewrite autopilot_disengaged by exact He.
  case_Rltb (h s) (alt_engage s); [lra |].
  unfold parachute_block.
  case_Rltb (h s) (chute_engage s); simpl; [| reflexivity].
  destruct (parachute_status_eqb (parachute_status s) NOT_DEPLOYED) eqn:Hst;
    [| reflexivity].
  apply parachute_status_eqb_eq in Hst.
  destruct Hchute as [Hc | [Hc | Hc]].
  - lra.
  - contradiction.
  - rewrite Hc. reflexivity.
Qed.


(** X6: an engaged autopilot whose radial velocity is on the profile
    [- (0.5 + Kh * h)] commands the throttle that balances the weight,
    [weight_throttle], whenever that lies strictly between 0 and 1. *)
Theorem engaged_throttle_on_profile (g_force mass : R) (s : State) :
  system_engaged s = true ->
  vel_radial s = - (0.5 + Kh s * h s) ->
  0 < weight_throttle g_force < 1 ->
  power_output s = 0
  /\ throttle (autopilot g_force mass s) = weight_throttle g_force.
Proof.
  intros He Hv Hw.
  assert (Hp : power_output s = 0).
  { unfold power_output, e. rewrite Hv. ring. }
  split; [exact Hp |].
  rewrite throttle_of_engaged by exact He.
  rewrite Hp, throttle_block_linear by lra. ring.
Qed.

(** X7: above the cut-off boundary, of two engaged landers at the same
    place (same altitude and gain) the one that descends faster never gets
    the smaller throttle. *)
Theorem engaged_throttle_monotone (g_force m1 m2 : R) (s1 s2 : State) :
  system_engaged s1 = true ->
  system_engaged s2 = true ->
  h s1 = h s2 ->
  Kh s1 = Kh s2 ->
  vel_radial s2 <= vel_radial s1 ->
  - weight_throttle g_force < power_output s1 ->
  power_output s1 <= power_output s2
  /\ throttle (autopilot g_force m1 s1) <= throttle (autopilot g_force m2 s2).
Proof.
  intros He1 He2 Hh HK Hv Hlo.
  assert (Hle : power_output s1 <= power_output s2).
  { unfold power_output, e, Kp. rewrite Hh, HK. lra. }
  split; [exact Hle |].
  rewrite !throttle_of_engaged by assumption.
  destruct (throttle_block_cases (weight_throttle g_force)
              (power_output s1) (throttle s1)) as [[H1 ->] | [H1 ->]];
    destruct (throttle_block_cases (weight_throttle g_force)
                (power_output s2) (throttle s2)) as [[H2 ->] | [H2 ->]];
    lra.
Qed.

(** X8: when the run started at 10 km or higher ([initial_altitude >=
    10000]) the parachute threshold is not above the engagement threshold,
    so an invocation that deploys the parachute ends engaged. *)
Theorem deployment_implies_engagement (g_force mass : R) (s : State) :
  10000 <= initial_altitude s ->
  parachute_status (autopilot g_force mass s) <> parachute_status s ->
  chute_engage s <= alt_engage s
  /\ system_engaged (autopilot g_force mass s) = true.
Proof.
  intros Hia Hch.
  assert (Hle : chute_engage s <= alt_engage s).
  { unfold chute_engage.
    assert (0 <= (initial_altitude s - 10000) / 1.943)
      by (apply Rmult_le_pos; [lra | apply Rlt_le, Rinv_0_lt_compat; lra]).
    lra. }
  split; [exact Hle |].
  assert (Hh : h s < chute_engage s).
  { rewrite autopilot_parachute_status, parachute_block_status in Hch.
    case_Rltb (h s) (chute_engage s); [exact Hlt |].
    simpl in Hch. contradiction. }
  destruct (system_engaged s) eqn:He.
  - apply (autopilot_latched g_force mass s He).
  - apply (autopilot_engages g_force mass s He). lra.
Qed.

(** *** Invariants of a run *)

(** X9: a throttle in [0,1] stays in [0,1] through every step of a run,
    with the autopilot switched on or off. *)
Theorem run_throttle_in_unit_interval (s0 : State) (n : nat) :
  0 <= throttle s0 <= 1 ->
  0 <= throttle (run n s0) <= 1.
Proof.
  intros H0. induction n as [| n IH]; [exact H0 |].
  simpl run. rewrite step_throttle.
  destruct (integrated_keeps_autopilot_state (run n s0))
    as (Hse & _ & _ & _ & _ & Hth).
  destruct (autopilot_enabled (run n s0)) eqn:Hen.
  - rewrite piloted_enabled by exact Hen.
    destruct (system_engaged (run n s0)) eqn:He.
    + rewrite throttle_of_engaged by (rewrite Hse; reflexivity).
      match goal with
      | |- _ <= throttle_block ?w ?p ?t <= _ =>
          destruct (throttle_block_cases w p t) as [[Hr ->] | [_ ->]]; lra
      end.
    + rewrite autopilot_disengaged by (rewrite Hse; reflexivity).
      rewrite parachute_block_frame.
      destruct (Rltb _ _); simpl; rewrite Hth; exact IH.
  - rewrite piloted_disabled by exact Hen. rewrite Hth. exact IH.
Qed.

(** X10: no step of a run takes the parachute out of [DEPLOYED] or out of
    [LOST]: from the step at which the status is one of them on, it is
    that same one. *)
Theorem run_parachute_is_kept (s0 : State) (m n : nat) :
  parachute_status (run m s0) = DEPLOYED
  \/ parachute_status (run m s0) = LOST ->
  (m <= n)%nat ->
  parachute_status (run n s0) = parachute_status (run m s0).
Proof.
  intros Hm Hle. induction Hle as [| n Hle IH]; [reflexivity |].
  simpl run. rewrite step_parachute_status.
  destruct (integrated_keeps_autopilot_state (run n s0)) as (_ & _ & Hps & _).
  destruct (autopilot_enabled (run n s0)) eqn:Hen.
  - rewrite piloted_enabled by exact Hen.
    rewrite autopilot_parachute_status, parachute_block_status, Hps, IH.
    destruct Hm as [-> | ->]; simpl; rewrite andb_false_r; reflexivity.
  - rewrite piloted_disabled by exact Hen. rewrite Hps. exact IH.
Qed.

(** *** More on the scenario initialiser *)

Ltac init_cases :=
  unfold initialize_simulation; cbv zeta;
  cbn [scenario set_system_engaged set_first_iteration
       set_scenario_description];
  match goal with
  | |- context [match scenario ?s with _ => _ end] =>
      let n := fresh "n" in
      let Hn := fresh "Hn" in
      remember (scenario s) as n eqn:Hn;
      repeat match goal with
             | |- context [match ?p with _ => _ end] => destruct p
             end
  end;
  cbn [first_iteration system_engaged autopilot_enabled initial_altitude
       stabilized_attitude parachute_status delta_t throttle fuel scenario
       vel_engaged previous_position current_position scenario_description
       position velocity orientation
       set_position set_velocity set_orientation set_delta_t
       set_parachute_status set_stabilized_attitude set_autopilot_enabled
       set_initial_altitude set_system_engaged set_first_iteration
       set_scenario_description].

(** X11: a restart assigns neither the throttle nor the fuel nor the
    scenario number, keeps the variables private to the integrator and the
    latched velocity as the earlier run left them, and leaves the
    descriptions of scenarios other than 0 to 5. *)
Theorem initialize_simulation_frame (s : State) :
  let s' := initialize_simulation s in
  throttle s' = throttle s
  /\ fuel s' = fuel s
  /\ scenario s' = scenario s
  /\ vel_engaged s' = vel_engaged s
  /\ previous_position s' = previous_position s
  /\ current_position s' = current_position s
  /\ (forall j : Z,
        (j < 0 \/ 5 < j)%Z ->
        scenario_description s' j = scenario_description s j).
Proof.
  cbv zeta. init_cases; repeat split; try (symmetry; assumption);
    intros j Hj;
    repeat match goal with
           | |- context [Z.eqb j ?k] =>
               destruct (Z.eqb_spec j k); [lia |]
           end; reflexivity.
Qed.

(** X12: a scenario number outside 0 to 5 has no case: the restart sets
    the bootstrap flag and clears the engagement flag, and leaves position,
    velocity, orientation, time step, parachute, both switches and
    [initial_altitude] as they were. *)
Theorem initialize_simulation_unknown_scenario (s : State) :
  (scenario s < 0 \/ 5 < scenario s)%Z ->
  let s' := initialize_simulation s in
  first_iteration s' = 1%Z
  /\ system_engaged s' = false
  /\ position s' = position s
  /\ velocity s' = velocity s
  /\ orientation s' = orientation s
  /\ delta_t s' = delta_t s
  /\ parachute_status s' = parachute_status s
  /\ stabilized_attitude s' = stabilized_attitude s
  /\ autopilot_enabled s' = autopilot_enabled s
  /\ initial_altitude s' = initial_altitude s.
Proof.
  intros Hs. cbv zeta. init_cases; try lia; repeat split.
Qed.

(** X13: in each of the scenarios 0 to 5 the restart leaves the parachute
    [NOT_DEPLOYED] and the time step at 0.1, switches the autopilot and the
    stabiliser on together, in scenarios 1 and 5 and in no other, and, for a
    positive planet radius, exosphere height and lander size, puts the lander
    above the surface. *)
Theorem initialize_simulation_known_scenario (s : State) :
  (0 <= scenario s <= 5)%Z ->
  0 < MARS_RADIUS -> 0 < EXOSPHERE -> 0 < LANDER_SIZE ->
  let s' := initialize_simulation s in
  parachute_status s' = NOT_DEPLOYED
  /\ delta_t s' = 0.1
  /\ stabilized_attitude s' = autopilot_enabled s'
  /\ (autopilot_enabled s' = true <-> scenario s = 1%Z \/ scenario s = 5%Z)
  /\ 0 < h s'.
Proof.
  intros Hs HR HE HL. cbv zeta. unfold h.
  init_cases; try lia;
    (split; [reflexivity | split; [reflexivity | split; [reflexivity |]]]);
    (split; [split; intros; (discriminate || lia || tauto || idtac) |]).
  all: try (left; reflexivity); try (right; reflexivity).
  all: try (destruct H; discriminate).
  all: match goal with
       | |- 0 < Vec.abs ?v - _ =>
           let side :=
             (first [lra | unfold Vec.abs2; cbn [Vec.x Vec.y Vec.z]; nra]) in
           first
             [ rewrite (abs_of_square v (1.2 * MARS_RADIUS)) by side
             | rewrite (abs_of_square v (MARS_RADIUS + 10000.0)) by side
             | rewrite (abs_of_square v (MARS_RADIUS + LANDER_SIZE / 2.0))
                 by side
             | rewrite (abs_of_square v (MARS_RADIUS + 100000.0)) by side
             | rewrite (abs_of_square v (MARS_RADIUS + EXOSPHERE)) by side ];
           lra
       end.
Qed.

(** X14: restarting twice is restarting once. *)
Theorem initialize_simulation_idempotent (s : State) :
  initialize_simulation (initialize_simulation s) = initialize_simulation s.
Proof.
  destruct s as [p v o dt th fu ps sa ae sc sd se ia fi ve pp cp].
  unfold initialize_simulation.
  repeat
    (cbv beta zeta iota
       delta [first_iteration system_engaged autopilot_enabled
              initial_altitude stabilized_attitude parachute_status delta_t
              throttle fuel scenario vel_engaged previous_position
              current_position scenario_description position velocity
              orientation set_position set_velocity set_orientation
              set_delta_t set_parachute_status set_stabilized_attitude
              set_autopilot_enabled set_initial_altitude set_system_engaged
              set_first_iteration set_scenario_description];
     try match goal with
         | |- context [match ?q with _ => _ end] => is_var q; destruct q
         end);
    f_equal;
    apply functional_extensionality; intros j;
    repeat match goal with
           | |- context [Z.eqb j ?k] => destruct (Z.eqb j k)
           end; reflexivity.
Qed.

(** *** A restart cuts a run off from the one before *)

Ltac fields :=
  cbv beta iota
    delta [first_iteration system_engaged autopilot_enabled initial_altitude
           stabilized_attitude parachute_status delta_t throttle fuel
           scenario vel_engaged previous_position current_position
           scenario_description position velocity orientation set_position
           set_velocity set_orientation set_delta_t set_parachute_status
           set_stabilized_attitude set_autopilot_enabled set_initial_altitude
           set_system_engaged set_first_iteration set_scenario_description
           set_throttle set_vel_engaged set_previous_position
           set_current_position negb].

Ltac fields_in H :=
  cbv beta iota
    delta [first_iteration system_engaged autopilot_enabled initial_altitude
           stabilized_attitude parachute_status delta_t throttle fuel
           scenario vel_engaged previous_position current_position
           scenario_description position velocity orientation set_position
           set_velocity set_orientation set_delta_t set_parachute_status
           set_stabilized_attitude set_autopilot_enabled set_initial_altitude
           set_system_engaged set_first_iteration set_scenario_description
           set_throttle set_vel_engaged set_previous_position
           set_current_position negb] in H.

(** Two related states as one state and the three free values of the
    other. *)
Ltac related s1 s2 H :=
  destruct s1 as [p1 v1 o1 dt1 th1 fu1 ps1 sa1 ae1 sc1 sd1 se1 ia1 fi1
                    ve1 pp1 cp1];
  destruct s2 as [p2 v2 o2 dt2 th2 fu2 ps2 sa2 ae2 sc2 sd2 se2 ia2 fi2
                    ve2 pp2 cp2];
  unfold same_run_state, same_globals in H; fields_in H;
  destruct H as ((? & ? & ? & ? & ? & ? & ? & ? & ? & ? & ?)
                 & ? & ? & ? & ? & ?);
  subst p2 v2 o2 dt2 th2 fu2 ps2 sa2 ae2 sc2 sd2 se2 ia2 fi2.

Ltac related_goal :=
  unfold same_run_state, same_globals; fields;
  repeat split; try reflexivity; try assumption.

(** Case analysis on every test, the innermost first. *)
Ltac innermost_ifs :=
  repeat match goal with
         | |- context [if ?c then _ else _] =>
             lazymatch c with
             | context [if _ then _ else _] => fail
             | _ => destruct c
             end;
             fields
         end.

Lemma same_run_state_verlet (a : vector3d) (s1 s2 : State) :
  same_run_state s1 s2 -> same_run_state (verlet a s1) (verlet a s2).
Proof.
  intros H. related s1 s2 H.
  unfold verlet. fields.
  destruct (Z.eqb_spec fi1 1) as [E | E]; fields.
  - related_goal.
  - match goal with
    | Hpp : _ -> pp1 = pp2 |- _ => rewrite <- (Hpp E)
    end.
    related_goal.
Qed.

Lemma same_run_state_autopilot (g_force mass : R) (s1 s2 : State) :
  safe_to_deploy_parachute s1 = safe_to_deploy_parachute s2 ->
  same_run_state s1 s2 ->
  same_run_state (autopilot g_force mass s1) (autopilot g_force mass s2).
Proof.
  intros Hsafe H. related s1 s2 H.
  unfold autopilot. cbv zeta. fields. rewrite Hsafe.
  destruct se1; fields.
  - match goal with
    | Hve : true = true -> ve1 = ve2 |- _ => rewrite <- (Hve eq_refl)
    end.
    innermost_ifs; related_goal.
  - innermost_ifs; related_goal; intros; discriminate.
Qed.

Lemma same_run_state_set_orientation (o : vector3d) (s1 s2 : State) :
  same_run_state s1 s2 ->
  same_run_state (set_orientation o s1) (set_orientation o s2).
Proof. intros H. related s1 s2 H. related_goal. Qed.

Lemma same_globals_forces (s1 s2 : State) :
  reads_globals_only ->
  same_globals s1 s2 ->
  mass_of s1 = mass_of s2
  /\ g_force_of s1 = g_force_of s2
  /\ acceleration s1 = acceleration s2.
Proof.
  intros (Hthrust & _) H.
  pose proof (Hthrust s1 s2 H) as Ht.
  destruct H as (Hp & Hv & _ & _ & _ & Hf & Hps & _).
  assert (Hm : mass_of s1 = mass_of s2) by (unfold mass_of; rewrite Hf; reflexivity).
  assert (Hg : g_force_of s1 = g_force_of s2)
    by (unfold g_force_of; rewrite Hm, Hp; reflexivity).
  assert (Hd : d_force_of s1 = d_force_of s2)
    by (unfold d_force_of; rewrite Hp, Hv, Hps; reflexivity).
  repeat split; try assumption.
  unfold acceleration. rewrite Hg, Hd, Ht, Hm. reflexivity.
Qed.

(** One step keeps two states related, when the collaborators read the
    simulator's globals only. *)
Lemma same_run_state_step (s1 s2 : State) :
  reads_globals_only ->
  same_run_state s1 s2 ->
  same_run_state (numerical_dynamics s1) (numerical_dynamics s2).
Proof.
  intros Hreads H.
  destruct (same_globals_forces s1 s2 Hreads (proj1 H)) as (Hm & Hg & Ha).
  destruct Hreads as (_ & Hsafe & Hatt).
  assert (Hi : same_run_state (integrated s1) (integrated s2)).
  { unfold integrated. rewrite Ha. apply same_run_state_verlet. exact H. }
  assert (Hpil : same_run_state (piloted s1) (piloted s2)).
  { unfold piloted. cbv zeta. rewrite Hm, Hg.
    assert (Hen : autopilot_enabled (integrated s1)
                  = autopilot_enabled (integrated s2))
      by apply Hi.
    rewrite Hen. destruct (autopilot_enabled (integrated s2)); [| exact Hi].
    apply same_run_state_autopilot; [apply Hsafe; apply Hi | exact Hi]. }
  rewrite !numerical_dynamics_steps.
  assert (Hst : stabilized_attitude (piloted s1)
                = stabilized_attitude (piloted s2))
    by apply Hpil.
  rewrite Hst. destruct (stabilized_attitude (piloted s2)); [| exact Hpil].
  rewrite (Hatt _ _ (proj1 Hpil)).
  apply same_run_state_set_orientation. exact Hpil.
Qed.

(** X15: a restart cuts the new run off from the variables of [lander.cpp]
    the old run leaves behind.  Two states with the same simulator globals
    and the same [initial_altitude], whatever their bootstrap and engagement
    flags, latched velocity and stored positions, give after
    [initialize_simulation] runs that agree at every step on every
    simulator global (position, velocity, throttle, parachute, ...),
    provided the collaborators read the simulator's globals only. *)
Theorem restart_isolates_runs (s1 s2 : State) (n : nat) :
  reads_globals_only ->
  same_globals s1 s2 ->
  initial_altitude s1 = initial_altitude s2 ->
  same_run_state (run n (initialize_simulation s1))
    (run n (initialize_simulation s2)).
Proof.
  intros Hreads Hg Hia.
  induction n as [| n IH].
  - simpl run.
    destruct s1 as [p1 v1 o1 dt1 th1 fu1 ps1 sa1 ae1 sc1 sd1 se1 ia1 fi1
                      ve1 pp1 cp1];
    destruct s2 as [p2 v2 o2 dt2 th2 fu2 ps2 sa2 ae2 sc2 sd2 se2 ia2 fi2
                      ve2 pp2 cp2].
    unfold same_globals in Hg. fields_in Hg. fields_in Hia.
    destruct Hg as (? & ? & ? & ? & ? & ? & ? & ? & ? & ? & ?).
    subst p2 v2 o2 dt2 th2 fu2 ps2 sa2 ae2 sc2 sd2 ia2.
    unfold initialize_simulation.
    repeat
      (cbv zeta; fields;
       try match goal with
           | |- context [match ?q with _ => _ end] => is_var q; destruct q
           end);
      related_goal; intros; try discriminate;
      match goal with
      | Habs : 1%Z <> 1%Z |- _ => exfalso; apply Habs; reflexivity
      end.
  - simpl run. apply same_run_state_step; assumption.
Qed.

(** *** The forces (lines 84-94) *)

Lemma abs2_nonneg (v : vector3d) : 0 <= Vec.abs2 v.
Proof. unfold Vec.abs2. nra. Qed.

Lemma dot_scale (k : R) (u v : vector3d) :
  Vec.dot (k *: u) v = k * Vec.dot u v.
Proof. unfold Vec.dot. simpl. ring. Qed.

Lemma dot_add (u w v : vector3d) :
  Vec.dot (u + w) v = Vec.dot u v + Vec.dot w v.
Proof. unfold Vec.dot. simpl. ring. Qed.

(** The unit vector of [v] never points against [v], whatever it is on the
    zero vector. *)
Lemma norm_dot_nonneg (v : vector3d) : 0 <= Vec.dot (Vec.norm v) v.
Proof.
  unfold Vec.dot, Vec.norm, Vec.div. simpl.
  replace (Vec.x v / Vec.abs v * Vec.x v + Vec.y v / Vec.abs v * Vec.y v
           + Vec.z v / Vec.abs v * Vec.z v)
    with (Vec.abs2 v * / Vec.abs v)
    by (unfold Vec.abs2, Rdiv; ring).
  pose proof (abs2_nonneg v) as HA.
  destruct (Req_dec (Vec.abs2 v) 0) as [H0 | H0].
  - rewrite H0. lra.
  - apply Rmult_le_pos; [exact HA |].
    apply Rlt_le, Rinv_0_lt_compat. unfold Vec.abs. apply sqrt_lt_R0. lra.
Qed.

(** X16: away from the centre of the planet gravity follows the
    inverse-square law: it points from the lander to the centre, and for a
    non-negative [GRAVITY * MARS_MASS * mass] its magnitude, the [g_force]
    the autopilot receives, is that product over the squared distance. *)
Theorem gravity_inverse_square (s : State) :
  0 < Vec.abs2 (position s) ->
  let r := Vec.abs (position s) in
  let k := GRAVITY * MARS_MASS * mass_of s in
  g_force_of s = (- (k / (r * r * r)) *: position s)%vec
  /\ (0 <= k -> Vec.abs (g_force_of s) = k / (r * r)).
Proof.
  intros Hpos r k.
  assert (Hr : 0 < r) by (unfold r, Vec.abs; apply sqrt_lt_R0; exact Hpos).
  assert (HA : Vec.abs2 (position s) = r * r)
    by (unfold r, Vec.abs; rewrite sqrt_sqrt; [reflexivity | lra]).
  assert (Hg : g_force_of s = (- (k / (r * r * r)) *: position s)%vec).
  { unfold g_force_of, Vec.norm. fold r. fold k. rewrite HA.
    apply vector3d_eq;
      cbn [Vec.x Vec.y Vec.z Vec.add Vec.sub Vec.scale Vec.times Vec.div];
      field; lra. }
  split; [exact Hg |].
  intros Hk. rewrite Hg.
  apply abs_of_square.
  - apply Rmult_le_pos; [exact Hk |].
    apply Rlt_le, Rinv_0_lt_compat. nra.
  - unfold Vec.abs2 in *. cbn [Vec.x Vec.y Vec.z Vec.scale].
    replace (- (k / (r * r * r)) * Vec.x (position s)
             * (- (k / (r * r * r)) * Vec.x (position s))
             + - (k / (r * r * r)) * Vec.y (position s)
               * (- (k / (r * r * r)) * Vec.y (position s))
             + - (k / (r * r * r)) * Vec.z (position s)
               * (- (k / (r * r * r)) * Vec.z (position s)))
      with (k / (r * r * r) * (k / (r * r * r))
            * (Vec.x (position s) * Vec.x (position s)
               + Vec.y (position s) * Vec.y (position s)
               + Vec.z (position s) * Vec.z (position s)))
      by ring.
    rewrite HA. field. lra.
Qed.

(** X17: with a non-negative air density and non-negative drag
    coefficients the drag never pushes the lander along its velocity, and a
    deployed parachute only adds to the drag. *)
Theorem drag_opposes_velocity (s : State) :
  0 <= atmospheric_density (position s) ->
  0 <= DRAG_COEF_LANDER ->
  0 <= DRAG_COEF_CHUTE ->
  Vec.dot (d_force_of s) (velocity s) <= 0
  /\ Vec.dot (d_force_of (set_parachute_status DEPLOYED s)) (velocity s)
     <= Vec.dot (d_force_of (set_parachute_status NOT_DEPLOYED s)) (velocity s).
Proof.
  intros Hrho Hl Hc.
  pose proof (abs2_nonneg (velocity s)) as HA.
  pose proof (norm_dot_nonneg (velocity s)) as HN.
  set (A := Vec.abs2 (velocity s)) in *.
  set (N := Vec.dot (Vec.norm (velocity s)) (velocity s)) in *.
  set (rho := atmospheric_density (position s)) in *.
  assert (HAN : 0 <= A * N) by (apply Rmult_le_pos; assumption).
  assert (Hlander : 0 <= rho * DRAG_COEF_LANDER * 3.14159265 * A * N).
  { replace (rho * DRAG_COEF_LANDER * 3.14159265 * A * N)
      with (rho * DRAG_COEF_LANDER * (A * N) * 3.14159265) by ring.
    apply Rmult_le_pos; [| lra].
    apply Rmult_le_pos; [apply Rmult_le_pos |]; assumption. }
  assert (Hchute : 0 <= rho * DRAG_COEF_CHUTE * 20 * A * N).
  { replace (rho * DRAG_COEF_CHUTE * 20 * A * N)
      with (rho * DRAG_COEF_CHUTE * (A * N) * 20) by ring.
    apply Rmult_le_pos; [| lra].
    apply Rmult_le_pos; [apply Rmult_le_pos |]; assumption. }
  assert (Hoff : forall p : parachute_status_t,
             parachute_status_eqb p DEPLOYED = false ->
             Vec.dot (d_force_of (set_parachute_status p s)) (velocity s)
             = - 0.5 * rho * DRAG_COEF_LANDER * 3.14159265 * A * N).
  { intros p Hp. unfold d_force_of. cbv zeta. simpl parachute_status.
    rewrite Hp. simpl position. simpl velocity. rewrite dot_scale.
    reflexivity. }
  assert (Hon : Vec.dot (d_force_of (set_parachute_status DEPLOYED s))
                  (velocity s)
                = - 0.5 * rho * DRAG_COEF_LANDER * 3.14159265 * A * N
                  + - 0.5 * rho * DRAG_COEF_CHUTE * 20 * A * N).
  { unfold d_force_of. cbv zeta.
    cbn [parachute_status position velocity set_parachute_status
         parachute_status_eqb].
    rewrite dot_add, !dot_scale. reflexivity. }
  split.
  - unfold d_force_of. cbv zeta. fold rho. fold A.
    destruct (parachute_status_eqb (parachute_status s) DEPLOYED);
      rewrite ?dot_add, !dot_scale; fold N; lra.
  - rewrite Hon, (Hoff NOT_DEPLOYED eq_refl). lra.
Qed.

End Lander.

(** ** The functions on the sample data *)

Lemma push_acceleration (s : State) :
  acceleration (sim := Sample.push) s = Vec.mk 0 3 0.
Proof.
  unfold acceleration, g_force_of, d_force_of, mass_of. cbv zeta.
  cbn [MARS_MASS GRAVITY UNLOADED_LANDER_MASS FUEL_DENSITY FUEL_CAPACITY
       DRAG_COEF_LANDER DRAG_COEF_CHUTE atmospheric_density thrust_wrt_world
       Sample.push].
  replace (1 + fuel s * 0 * 0) with 1 by ring.
  destruct (parachute_status_eqb (parachute_status s) DEPLOYED);
    apply vector3d_eq;
    cbn [Vec.x Vec.y Vec.z Vec.add Vec.sub Vec.scale Vec.times Vec.div];
    unfold Rdiv; rewrite Rinv_1; ring.
Qed.

Lemma slow_descent_power_output :
  h (sim := Sample.push) Sample.slow_descent = 1000
  /\ vel_radial Sample.slow_descent = - 20
  /\ power_output (sim := Sample.push) Sample.slow_descent = - 0.88
  /\ weight_throttle (sim := Sample.push) 500 = 0.5.
Proof.
  destruct (on_y_axis (sim := Sample.push) Sample.slow_descent 3387000)
    as [Hh Hv]; [lra | reflexivity |].
  cbn [MARS_RADIUS Sample.push] in Hh.
  cbn [velocity Sample.slow_descent Vec.y] in Hv.
  assert (Hh' : h (sim := Sample.push) Sample.slow_descent = 1000)
    by (rewrite Hh; lra).
  split; [exact Hh' | split; [exact Hv | split]].
  - unfold power_output, e, Kh, alt_engage, Kp. rewrite Hh', Hv.
    cbn [vel_engaged initial_altitude Sample.slow_descent]. lra.
  - unfold weight_throttle. cbn [MAX_THRUST Sample.push]. lra.
Qed.

(** C1, evaluated on the code: engaged, with [power_output = -0.88] at or
    below [- weight_throttle = -0.5], the three chained branches of the
    specification give throttle 0, the autopilot leaves throttle 1. *)
Theorem cutoff_branch_ends_at_full_thrust :
  system_engaged Sample.slow_descent = true
  /\ power_output (sim := Sample.push) Sample.slow_descent
     <= - weight_throttle (sim := Sample.push) 500
  /\ spec_throttle_mapping
       (weight_throttle (sim := Sample.push) 500)
       (power_output (sim := Sample.push) Sample.slow_descent) = 0
  /\ throttle (autopilot (sim := Sample.push) 500 134 Sample.slow_descent) = 1.
Proof.
  destruct slow_descent_power_output as (_ & _ & Hp & Hw).
  assert (Hle : power_output (sim := Sample.push) Sample.slow_descent
                <= - weight_throttle (sim := Sample.push) 500)
    by (rewrite Hp, Hw; lra).
  split; [reflexivity | split; [exact Hle | split]].
  - apply spec_throttle_mapping_cutoff. exact Hle.
  - rewrite throttle_of_engaged by reflexivity.
    apply throttle_block_cutoff. exact Hle.
Qed.

Lemma autopilot_throttle_in_unit_interval_slow_descent :
  (system_engaged Sample.slow_descent = true
   \/ 0 <= throttle Sample.slow_descent <= 1)
  /\ 0 <= throttle (autopilot (sim := Sample.push) 500 134 Sample.slow_descent)
     <= 1.
Proof.
  split.
  - left. reflexivity.
  - apply (autopilot_throttle_in_unit_interval (sim := Sample.push)).
    left. reflexivity.
Defined.

Lemma autopilot_disengaged_keeps_throttle_high_coast :
  system_engaged Sample.high_coast = false
  /\ throttle (autopilot (sim := Sample.push) 500 134 Sample.high_coast)
     = throttle Sample.high_coast.
Proof.
  split.
  - reflexivity.
  - exact (proj1 (autopilot_disengaged_keeps_throttle (sim := Sample.push)
                    500 134 Sample.high_coast eq_refl)).
Defined.

Lemma autopilot_engaged_throttle_positive_slow_descent :
  system_engaged Sample.slow_descent = true
  /\ 0 < throttle (autopilot (sim := Sample.push) 500 134 Sample.slow_descent).
Proof.
  split.
  - reflexivity.
  - apply (autopilot_engaged_throttle_positive (sim := Sample.push) 500 134
             Sample.slow_descent eq_refl).
Defined.

Lemma bootstrap_then_kinematics_at_rest :
  first_iteration Sample.at_rest = 1%Z
  /\ position (run (sim := Sample.push) 3 Sample.at_rest)
     = (position Sample.at_rest
        + (0.5 *: Vec.mk 0 3 0) :* (INR 3 * 0.1 * (INR 3 * 0.1)))%vec.
Proof.
  split.
  - reflexivity.
  - pose proof (bootstrap_then_kinematics (sim := Sample.push)
                  Sample.at_rest eq_refl) as H.
    cbv zeta in H. destruct H as (_ & _ & H).
    apply (H (Vec.mk 0 3 0) 3%nat).
    + reflexivity.
    + intros k _. apply push_acceleration.
Defined.

Lemma steady_state_step_slow_descent :
  first_iteration Sample.slow_descent <> 1%Z
  /\ previous_position (numerical_dynamics (sim := Sample.push) Sample.slow_descent)
     = position Sample.slow_descent.
Proof.
  assert (Hne : first_iteration Sample.slow_descent <> 1%Z)
    by (simpl; discriminate).
  split.
  - exact Hne.
  - pose proof (steady_state_step (sim := Sample.push)
                  Sample.slow_descent Hne) as H.
    cbv zeta in H. destruct H as (_ & H & _). exact H.
Defined.

(** The first two calls of the integrator from [Sample.high_coast]:
    5000.485 m up after the first, 4999.44 m up after the second. *)
Lemma high_coast_altitudes :
  h (sim := Sample.push) (integrated (sim := Sample.push) Sample.high_coast)
  = 5000.485
  /\ h (sim := Sample.push)
       (integrated (sim := Sample.push)
          (numerical_dynamics (sim := Sample.push) Sample.high_coast))
     = 4999.44
  /\ (forall s : State,
        initial_altitude s = 10000 ->
        alt_engage (integrated (sim := Sample.push) s) = 5000).
Proof.
  assert (Hp1 : position (integrated (sim := Sample.push) Sample.high_coast)
                = Vec.mk 0 (- (3391000.485)) 0).
  { rewrite integrated_first by reflexivity. rewrite push_acceleration.
    cbn [position velocity delta_t Sample.high_coast].
    apply vector3d_eq;
      cbn [Vec.x Vec.y Vec.z Vec.add Vec.sub Vec.scale Vec.times]; lra. }
  assert (Hp2 : position
                  (integrated (sim := Sample.push)
                     (numerical_dynamics (sim := Sample.push)
                        Sample.high_coast))
                = Vec.mk 0 (- (3390999.44)) 0).
  { rewrite integrated_second by reflexivity.
    rewrite Hp1, push_acceleration.
    cbn [position velocity delta_t Sample.high_coast].
    apply vector3d_eq;
      cbn [Vec.x Vec.y Vec.z Vec.add Vec.sub Vec.scale Vec.times]; lra. }
  split; [| split].
  - destruct (on_y_axis (sim := Sample.push) _ 3391000.485 ltac:(lra) Hp1)
      as [Hh _].
    rewrite Hh. cbn [MARS_RADIUS Sample.push]. lra.
  - destruct (on_y_axis (sim := Sample.push) _ 3390999.44 ltac:(lra) Hp2)
      as [Hh _].
    rewrite Hh. cbn [MARS_RADIUS Sample.push]. lra.
  - intros s Hs. unfold alt_engage.
    destruct (integrated_keeps_autopilot_state (sim := Sample.push) s)
      as (_ & _ & _ & _ & Hi & _).
    rewrite Hi, Hs. lra.
Qed.

Lemma engagement_fires_once_and_latches_high_coast :
  system_engaged (run (sim := Sample.push) 1 Sample.high_coast) = false
  /\ system_engaged (run (sim := Sample.push) 2 Sample.high_coast) = true
  /\ vel_engaged (run (sim := Sample.push) 3 Sample.high_coast)
     = vel_radial
         (integrated (sim := Sample.push)
            (run (sim := Sample.push) 1 Sample.high_coast)).
Proof.
  destruct high_coast_altitudes as (H0 & H1 & Halt).
  assert (Hia : initial_altitude
                  (numerical_dynamics (sim := Sample.push) Sample.high_coast)
                = 10000)
    by (rewrite step_initial_altitude; reflexivity).
  destruct (engagement_fires_once_and_latches (sim := Sample.push)
              Sample.high_coast 1) as (Hlow & Hhigh & _).
  - reflexivity.
  - reflexivity.
  - intros k Hk. assert (k = 0%nat) as -> by lia.
    change (run 0 Sample.high_coast) with Sample.high_coast.
    rewrite H0, (Halt Sample.high_coast eq_refl). lra.
  - change (run 1 Sample.high_coast)
      with (numerical_dynamics (sim := Sample.push) Sample.high_coast).
    rewrite H1, (Halt _ Hia). lra.
  - split; [apply Hlow; lia | split].
    + apply (Hhigh 2%nat). lia.
    + apply (Hhigh 3%nat). lia.
Defined.

Lemma parachute_only_deploys_never_safe :
  parachute_status (run (sim := Sample.push) 5 Sample.at_rest) = NOT_DEPLOYED.
Proof.
  destruct (parachute_only_deploys (sim := Sample.push)) as (_ & _ & H & _).
  apply (H Sample.at_rest).
  - reflexivity.
  - intros k _ _ _. reflexivity.
Defined.

(** C9 fails as stated: a restart into scenario 0 after a descent from
    10 km leaves [initial_altitude] at 10000, while the new starting position
    is 677200 m up. *)
Lemma initial_altitude_stale_in_scenario_0 :
  ~ spec_scenario_reset (sim := Sample.push)
      (initialize_simulation (sim := Sample.push) (Sample.restart 0)).
Proof.
  intros (_ & _ & H).
  assert (Hi : initial_altitude
                 (initialize_simulation (sim := Sample.push) (Sample.restart 0))
               = 10000) by reflexivity.
  assert (Ha : Vec.abs
                 (position
                    (initialize_simulation (sim := Sample.push)
                       (Sample.restart 0)))
               = 4063200).
  { apply abs_of_square; [lra |].
    unfold initialize_simulation. cbv zeta.
    cbn [scenario Sample.restart set_scenario_description set_first_iteration
         set_system_engaged position set_position set_velocity set_orientation
         set_delta_t set_parachute_status set_stabilized_attitude
         set_autopilot_enabled MARS_RADIUS Sample.push].
    unfold Vec.abs2. cbn [Vec.x Vec.y Vec.z]. lra. }
  rewrite Hi, Ha in H. cbn [MARS_RADIUS Sample.push] in H. lra.
Qed.

Lemma initialize_simulation_resets_scenario_1 :
  scenario (Sample.restart 1) = 1%Z
  /\ first_iteration
       (initialize_simulation (sim := Sample.push) (Sample.restart 1)) = 1%Z
  /\ initial_altitude
       (initialize_simulation (sim := Sample.push) (Sample.restart 1))
     = Vec.abs
         (position
            (initialize_simulation (sim := Sample.push) (Sample.restart 1)))
       - MARS_RADIUS (Simulator := Sample.push).
Proof.
  pose proof (initialize_simulation_resets (sim := Sample.push)
                (Sample.restart 1)) as H.
  cbv zeta in H. destruct H as (Hf & _ & _ & Ha & _).
  split; [reflexivity | split; [exact Hf |]].
  apply Ha. left. reflexivity.
Defined.

(** ** The further properties on the sample data *)

Lemma run_uniform_acceleration_high_coast :
  first_iteration Sample.high_coast = 1%Z
  /\ delta_t Sample.high_coast <> 0
  /\ velocity (run (sim := Sample.push) 3 Sample.high_coast)
     = (velocity Sample.high_coast + Vec.mk 0 3 0 :* (INR 3 * 0.1))%vec.
Proof.
  assert (Hdt : delta_t Sample.high_coast <> 0)
    by (cbn [delta_t Sample.high_coast]; lra).
  split; [reflexivity | split; [exact Hdt |]].
  exact (proj2 (run_uniform_acceleration (sim := Sample.push) (Vec.mk 0 3 0)
                  Sample.high_coast 2 eq_refl Hdt
                  (fun k _ => push_acceleration _))).
Defined.

Lemma integrator_velocity_reduced_high_coast :
  delta_t Sample.high_coast <> 0
  /\ velocity (numerical_dynamics (sim := Sample.push) Sample.high_coast)
     = (velocity Sample.high_coast
        + acceleration (sim := Sample.push) Sample.high_coast
          :* delta_t Sample.high_coast)%vec.
Proof.
  assert (Hdt : delta_t Sample.high_coast <> 0)
    by (cbn [delta_t Sample.high_coast]; lra).
  split; [exact Hdt |].
  exact (proj1 (integrator_velocity_reduced (sim := Sample.push)
                  Sample.high_coast Hdt) eq_refl).
Defined.

Lemma at_rest_altitudes :
  h (sim := Sample.push) Sample.at_rest = 10000
  /\ alt_engage Sample.at_rest = 5000
  /\ chute_engage Sample.at_rest = 5000.
Proof.
  destruct (on_y_axis (sim := Sample.push) Sample.at_rest 3396000)
    as [Hh _]; [lra | reflexivity |].
  cbn [MARS_RADIUS Sample.push] in Hh.
  split; [rewrite Hh; lra |].
  unfold chute_engage, alt_engage. cbn [initial_altitude Sample.at_rest].
  split; lra.
Qed.

Lemma autopilot_inert_above_thresholds_at_rest :
  system_engaged Sample.at_rest = false
  /\ autopilot (sim := Sample.push) 500 134 Sample.at_rest = Sample.at_rest.
Proof.
  destruct at_rest_altitudes as (Hh & Ha & _).
  split; [reflexivity |].
  apply (autopilot_inert_above_thresholds (sim := Sample.push)).
  - reflexivity.
  - rewrite Hh, Ha. lra.
  - right. right. reflexivity.
Defined.

Lemma touchdown_place (sim : Simulator) :
  MARS_RADIUS = 3386000 ->
  h Trial.touchdown = 0 /\ vel_radial Trial.touchdown = - 0.5.
Proof.
  intros HR.
  destruct (on_y_axis (sim := sim) Trial.touchdown 3386000)
    as [Hh Hv]; [lra | reflexivity |].
  cbn [velocity Trial.touchdown Vec.y] in Hv.
  split; [rewrite Hh, HR; lra | rewrite Hv; lra].
Qed.


Lemma engaged_throttle_on_profile_touchdown :
  system_engaged Trial.touchdown = true
  /\ throttle (autopilot (sim := Trial.mars) 500 134 Trial.touchdown)
     = weight_throttle (sim := Trial.mars) 500.
Proof.
  destruct (touchdown_place Trial.mars eq_refl) as [Hh Hv].
  split; [reflexivity |].
  apply (engaged_throttle_on_profile (sim := Trial.mars) 500 134
           Trial.touchdown eq_refl).
  - rewrite Hv, Hh. lra.
  - unfold weight_throttle. cbn [MAX_THRUST Trial.mars]. lra.
Defined.

Lemma descents_place (sim : Simulator) :
  MARS_RADIUS = 3386000 ->
  h Sample.slow_descent = 1000
  /\ h Trial.faster_descent = 1000
  /\ vel_radial Sample.slow_descent = - 20
  /\ vel_radial Trial.faster_descent = - 30
  /\ Kh Sample.slow_descent = 0.0371
  /\ Kh Trial.faster_descent = 0.0371
  /\ chute_engage Sample.slow_descent = 5000.
Proof.
  intros HR.
  destruct (on_y_axis (sim := sim) Sample.slow_descent 3387000)
    as [Hh1 Hv1]; [lra | reflexivity |].
  destruct (on_y_axis (sim := sim) Trial.faster_descent 3387000)
    as [Hh2 Hv2]; [lra | reflexivity |].
  cbn [velocity Sample.slow_descent Trial.faster_descent Vec.y] in Hv1, Hv2.
  rewrite HR in Hh1, Hh2.
  repeat split; try lra;
    unfold Kh, chute_engage, alt_engage, Kp;
    cbn [vel_engaged initial_altitude Sample.slow_descent
         Trial.faster_descent]; lra.
Qed.

Lemma engaged_throttle_monotone_descents :
  vel_radial Trial.faster_descent <= vel_radial Sample.slow_descent
  /\ throttle (autopilot (sim := Trial.mars) 900 134 Sample.slow_descent)
     <= throttle (autopilot (sim := Trial.mars) 900 134 Trial.faster_descent).
Proof.
  destruct (descents_place Trial.mars eq_refl)
    as (Hh1 & Hh2 & Hv1 & Hv2 & HK1 & HK2 & _).
  assert (Hv : vel_radial Trial.faster_descent
               <= vel_radial Sample.slow_descent)
    by (rewrite Hv1, Hv2; lra).
  split; [exact Hv |].
  apply (engaged_throttle_monotone (sim := Trial.mars) 900 134 134
           Sample.slow_descent Trial.faster_descent eq_refl eq_refl).
  - rewrite Hh1, Hh2. reflexivity.
  - rewrite HK1, HK2. reflexivity.
  - exact Hv.
  - unfold power_output, e, weight_throttle, Kp. rewrite HK1, Hh1, Hv1.
    cbn [MAX_THRUST Trial.mars]. lra.
Defined.

Lemma deployment_implies_engagement_slow_descent :
  10000 <= initial_altitude Sample.slow_descent
  /\ parachute_status (autopilot (sim := Trial.mars) 500 134 Sample.slow_descent)
     = DEPLOYED
  /\ system_engaged (autopilot (sim := Trial.mars) 500 134 Sample.slow_descent)
     = true.
Proof.
  destruct (descents_place Trial.mars eq_refl)
    as (Hh1 & _ & _ & _ & _ & _ & Hc).
  assert (Hia : 10000 <= initial_altitude Sample.slow_descent)
    by (cbn [initial_altitude Sample.slow_descent]; lra).
  assert (Hdep : parachute_status
                   (autopilot (sim := Trial.mars) 500 134 Sample.slow_descent)
                 = DEPLOYED).
  { apply (proj1 (autopilot_deploys_iff (sim := Trial.mars) 500 134
                    Sample.slow_descent)).
    split; [reflexivity | split; [rewrite Hh1, Hc; lra | reflexivity]]. }
  split; [exact Hia | split; [exact Hdep |]].
  apply (deployment_implies_engagement (sim := Trial.mars) 500 134
           Sample.slow_descent Hia).
  rewrite Hdep. discriminate.
Defined.

Lemma run_throttle_in_unit_interval_at_rest :
  0 <= throttle Sample.at_rest <= 1
  /\ 0 <= throttle (run (sim := Sample.push) 4 Sample.at_rest) <= 1.
Proof.
  assert (H0 : 0 <= throttle Sample.at_rest <= 1)
    by (cbn [throttle Sample.at_rest]; lra).
  split; [exact H0 |].
  exact (run_throttle_in_unit_interval (sim := Sample.push) Sample.at_rest 4 H0).
Defined.

Lemma run_parachute_is_kept_restart :
  parachute_status (run (sim := Sample.push) 3 (Sample.restart 1)) = DEPLOYED.
Proof.
  exact (run_parachute_is_kept (sim := Sample.push) (Sample.restart 1) 0 3
           (or_introl eq_refl) (Nat.le_0_l 3)).
Defined.

Lemma initialize_simulation_unknown_scenario_7 :
  (scenario (Sample.restart 7) < 0 \/ 5 < scenario (Sample.restart 7))%Z
  /\ position (initialize_simulation (sim := Sample.push) (Sample.restart 7))
     = position (Sample.restart 7)
  /\ first_iteration
       (initialize_simulation (sim := Sample.push) (Sample.restart 7)) = 1%Z.
Proof.
  assert (Hs : (scenario (Sample.restart 7) < 0
                \/ 5 < scenario (Sample.restart 7))%Z)
    by (right; reflexivity).
  pose proof (initialize_simulation_unknown_scenario (sim := Sample.push)
                (Sample.restart 7) Hs) as H.
  cbv zeta in H. destruct H as (Hf & _ & Hp & _).
  split; [exact Hs | split; [exact Hp | exact Hf]].
Defined.

Lemma initialize_simulation_known_scenario_3 :
  (0 <= scenario (Sample.restart 3) <= 5)%Z
  /\ 0 < h (sim := Sample.push)
           (initialize_simulation (sim := Sample.push) (Sample.restart 3)).
Proof.
  assert (Hs : (0 <= scenario (Sample.restart 3) <= 5)%Z)
    by (cbn [scenario Sample.restart]; lia).
  split; [exact Hs |].
  apply (initialize_simulation_known_scenario (sim := Sample.push)
           (Sample.restart 3) Hs);
    cbn [MARS_RADIUS EXOSPHERE LANDER_SIZE Sample.push]; lra.
Defined.

Lemma push_reads_globals_only : reads_globals_only (sim := Sample.push).
Proof.
  unfold reads_globals_only.
  cbn [thrust_wrt_world safe_to_deploy_parachute attitude_stabilization
       Sample.push].
  repeat split. intros s1 s2 H. apply H.
Qed.

Lemma restart_isolates_runs_other_restart :
  same_globals (Sample.restart 1) Trial.other_restart
  /\ position
       (run (sim := Sample.push) 3
          (initialize_simulation (sim := Sample.push) (Sample.restart 1)))
     = position
         (run (sim := Sample.push) 3
            (initialize_simulation (sim := Sample.push) Trial.other_restart)).
Proof.
  assert (Hg : same_globals (Sample.restart 1) Trial.other_restart)
    by (unfold same_globals; repeat split).
  split; [exact Hg |].
  apply (restart_isolates_runs (sim := Sample.push) (Sample.restart 1)
           Trial.other_restart 3 push_reads_globals_only Hg eq_refl).
Defined.

Lemma gravity_inverse_square_slow_descent :
  0 < Vec.abs2 (position Sample.slow_descent)
  /\ Vec.abs (g_force_of (sim := Trial.mars) Sample.slow_descent)
     = 3 * 2 * mass_of (sim := Trial.mars) Sample.slow_descent
       / (Vec.abs (position Sample.slow_descent)
          * Vec.abs (position Sample.slow_descent)).
Proof.
  assert (Hp : 0 < Vec.abs2 (position Sample.slow_descent))
    by (unfold Vec.abs2; cbn [position Sample.slow_descent Vec.x Vec.y Vec.z];
        lra).
  split; [exact Hp |].
  apply (gravity_inverse_square (sim := Trial.mars) Sample.slow_descent Hp).
  unfold mass_of.
  cbn [GRAVITY MARS_MASS UNLOADED_LANDER_MASS FUEL_DENSITY FUEL_CAPACITY
       Trial.mars fuel Sample.slow_descent].
  lra.
Defined.

Lemma drag_opposes_velocity_slow_descent :
  Vec.dot (d_force_of (sim := Trial.mars) Sample.slow_descent)
    (velocity Sample.slow_descent) <= 0.
Proof.
  apply (drag_opposes_velocity (sim := Trial.mars) Sample.slow_descent);
    cbn [atmospheric_density DRAG_COEF_LANDER DRAG_COEF_CHUTE Trial.mars];
    lra.
Defined.

Module Binary64Facts.

Import PrimFloat.

(** The same on the machine's numbers: at and below the cut-off boundary
    the block leaves 1, just above it a value near 0. *)
Lemma throttle_block_at_cutoff :
  Binary64.throttle_block 0.5 (-0.875) 0.5 = 1%float
  /\ Binary64.throttle_block 0.5 (-0.5) 0.5 = 1%float
  /\ Binary64.throttle_block 0.5 (-0.4375) 0.5 = 0.0625%float.
Proof. repeat split; vm_compute; reflexivity. Qed.

(** A NaN in either operand fails every comparison, and the block leaves
    1. *)
Lemma throttle_block_on_nan :
  Binary64.throttle_block nan 0.5 0.5 = 1%float
  /\ Binary64.throttle_block 0.5 nan 0.5 = 1%float.
Proof. repeat split; vm_compute; reflexivity. Qed.

End Binary64Facts.
